(** * DailyRoutines: a shallow embedding of the AppDaemon application

    The embedding follows [src/DailyRoutines.py] and
    [src/routines_actions.py].  The application object is a record, the
    host (AppDaemon) is a store of live one-shot timers together with a
    supply of fresh handles, and every method is a computation in a small
    state/exception/output monad: Python exceptions keep the mutations done
    before the [raise], and every call into the host ([log], [turn_on],
    [turn_off], [run_in], [cancel_timer], [listen_state]) is recorded, in
    order, in the list of effects the computation emits. *)

From Stdlib Require Import ZArith Lia Ascii String.
From stdpp Require Import base option list strings gmap fin_maps.

Set Warnings "-register-all".
Local Open Scope string_scope.
Local Open Scope list_scope.
Local Open Scope Z_scope.

(** ** Python values and the builtins the application calls *)

Module Py.

(** A float is a dyadic number [m * 2^e], an infinity or a NaN. *)
Inductive pyfloat : Type :=
| Finite (m e : Z)
| Inf (negative : bool)
| NaN.

(** The values an AppDaemon argument (a YAML scalar or collection) can
    take. *)
Inductive pyval : Type :=
| PyNone
| PyBool (b : bool)
| PyInt (z : Z)
| PyFloat (f : pyfloat)
| PyStr (s : string)
| PyList (items : list pyval)
| PyDict (items : list (string * pyval)).

Inductive exn : Type :=
| ValueError
| TypeError
| OverflowError.

Inductive result (A : Type) : Type :=
| Ok (a : A)
| Raise (e : exn).
Arguments Ok {A} a.
Arguments Raise {A} e.

Definition raises {A} (r : result A) : Prop :=
  match r with Ok _ => False | Raise _ => True end.

Definition raisesb {A} (r : result A) : bool :=
  match r with Ok _ => false | Raise _ => true end.

(** [x is None] *)
Definition is_None (v : pyval) : bool :=
  match v with PyNone => true | _ => false end.

(** [bool(x)]: the truth value tested by [if not x]. *)
Definition truthy (v : pyval) : bool :=
  match v with
  | PyNone => false
  | PyBool b => b
  | PyInt z => negb (z =? 0)
  | PyFloat (Finite m _) => negb (m =? 0)
  | PyFloat _ => true
  | PyStr s => negb (String.eqb s EmptyString)
  | PyList l => match l with [] => false | _ => true end
  | PyDict l => match l with [] => false | _ => true end
  end.

(** [c.isspace()] for a character taken as a code point below 256. *)
Definition isspace (c : ascii) : bool :=
  let n := Z.of_nat (nat_of_ascii c) in
  ((9 <=? n) && (n <=? 13)) || ((28 <=? n) && (n <=? 32))
  || (n =? 133) || (n =? 160).

Fixpoint lstrip (s : string) : string :=
  match s with
  | EmptyString => EmptyString
  | String c s' => if isspace c then lstrip s' else s
  end.

Fixpoint rstrip (s : string) : string :=
  match s with
  | EmptyString => EmptyString
  | String c s' =>
      match rstrip s' with
      | EmptyString => if isspace c then EmptyString else String c EmptyString
      | r => String c r
      end
  end.

(** [s.strip()] *)
Definition strip (s : string) : string := rstrip (lstrip s).

(** [s.endswith(c)] for a one-character suffix. *)
Fixpoint endswith (s : string) (c : ascii) : bool :=
  match s with
  | EmptyString => false
  | String a EmptyString => Ascii.eqb a c
  | String _ s' => endswith s' c
  end.

(** [s[:-1]] *)
Fixpoint drop_last (s : string) : string :=
  match s with
  | EmptyString => EmptyString
  | String _ EmptyString => EmptyString
  | String a s' => String a (drop_last s')
  end.

Definition digit_val (c : ascii) : option Z :=
  let n := Z.of_nat (nat_of_ascii c) in
  if (48 <=? n) && (n <=? 57) then Some (n - 48) else None.

(** Decimal digits, with single underscores allowed between digits. *)
Fixpoint int_digits (s : string) (acc : Z) (after_digit : bool) : option Z :=
  match s with
  | EmptyString => if after_digit then Some acc else None
  | String c s' =>
      if Ascii.eqb c "_"%char
      then if after_digit then int_digits s' acc false else None
      else match digit_val c with
           | Some d => int_digits s' (10 * acc + d) true
           | None => None
           end
  end.

(** The whitespace [int()] skips around the digits: unlike
    [str.strip()], not the separators U+001C to U+001F. *)
Definition int_isspace (c : ascii) : bool :=
  let n := Z.of_nat (nat_of_ascii c) in
  ((9 <=? n) && (n <=? 13)) || (n =? 32) || (n =? 133) || (n =? 160).

Fixpoint int_lstrip (s : string) : string :=
  match s with
  | EmptyString => EmptyString
  | String c s' => if int_isspace c then int_lstrip s' else s
  end.

Fixpoint int_rstrip (s : string) : string :=
  match s with
  | EmptyString => EmptyString
  | String c s' =>
      match int_rstrip s' with
      | EmptyString =>
          if int_isspace c then EmptyString else String c EmptyString
      | r => String c r
      end
  end.

(** [int(s)] for a [str]: surrounding whitespace, an optional sign, then
    decimal digits.  (Digits outside ASCII and the interpreter's limit on
    the number of digits are not represented; both only move inputs
    between [Ok] and [ValueError].) *)
Definition int_of_str (s : string) : option Z :=
  match int_rstrip (int_lstrip s) with
  | String "+"%char r => int_digits r 0 false
  | String "-"%char r => Z.opp <$> int_digits r 0 false
  | r => int_digits r 0 false
  end.

(** [int(f)] for a finite float: truncation toward zero. *)
Definition trunc (m e : Z) : Z :=
  if 0 <=? e then m * 2 ^ e else Z.quot m (2 ^ (- e)).

(** [int(x)] *)
Definition int_ (v : pyval) : result Z :=
  match v with
  | PyNone => Raise TypeError
  | PyBool b => Ok (if b then 1 else 0)
  | PyInt z => Ok z
  | PyFloat (Finite m e) => Ok (trunc m e)
  | PyFloat (Inf _) => Raise OverflowError
  | PyFloat NaN => Raise ValueError
  | PyStr s => match int_of_str s with
               | Some z => Ok z
               | None => Raise ValueError
               end
  | PyList _ => Raise TypeError
  | PyDict _ => Raise TypeError
  end.

(** [d.get(key)]: [None] when the key is not in the dict. *)
Definition dict_get (d : gmap string pyval) (key : string) : pyval :=
  default PyNone (d !! key).

(** [d.get(key, dflt)] *)
Definition dict_get_default (d : gmap string pyval) (key : string)
    (dflt : pyval) : pyval :=
  default dflt (d !! key).

(** [key in d] *)
Definition dict_contains (d : gmap string pyval) (key : string) : bool :=
  bool_decide (is_Some (d !! key)).

End Py.
Export Py.

(** ** [datetime] values and the operations the scheduler uses *)

Module Datetime.

(** A [datetime]: the wall-clock reading, in microseconds since
    0001-01-01T00:00:00, and the [tzinfo], which is either absent (a naive
    datetime) or a fixed UTC offset in microseconds. *)
Record datetime : Type := mkDatetime {
  wall : Z;
  tzinfo : option Z
}.

(** One past [datetime.max]: 9999-12-31T23:59:59.999999. *)
Definition MAX_WALL : Z := 3652059 * 86400 * 1000000.

Definition in_range (w : Z) : bool := (0 <=? w) && (w <? MAX_WALL).

(** The instant on the UTC time line an aware datetime denotes. *)
Definition utc_instant (d : datetime) : Z := wall d - default 0 (tzinfo d).

(** [d.replace(tzinfo=tz)] *)
Definition replace_tzinfo (d : datetime) (tz : Z) : datetime :=
  mkDatetime (wall d) (Some tz).

(** [d - timedelta(minutes=m)]: [OverflowError] when the timedelta or the
    resulting date is out of range. *)
Definition sub_minutes (d : datetime) (m : Z) : result datetime :=
  let w := wall d - m * 60 * 1000000 in
  if in_range w then Ok (mkDatetime w (tzinfo d)) else Raise OverflowError.

(** [datetime.now(timezone.utc).astimezone(tz)], where [now] is the
    reading of the host clock in UTC.  The scheduler only passes the
    [tzinfo] of an aware datetime. *)
Definition astimezone (now : Z) (tz : option Z) : datetime :=
  mkDatetime (now + default 0 tz) tz.

(** [a < b] on aware datetimes. *)
Definition dt_lt (a b : datetime) : bool := utc_instant a <? utc_instant b.

(** The integer nearest to [num / den], ties to the even one. *)
Definition round_half_even (num den : Z) : Z :=
  let q := num / den in
  let r := num mod den in
  if 2 * r <? den then q
  else if den <? 2 * r then q + 1
  else if Z.even q then q else q + 1.

(** The binary exponent of [n / d]: [2^e <= n / d < 2^(e+1)]. *)
Definition binade (n d : Z) : Z :=
  let e := Z.log2 n - Z.log2 d in
  let below := if 0 <=? e then n <? d * 2 ^ e else n * 2 ^ (- e) <? d in
  if below then e - 1 else e.

(** [int(n / d)] for ints [n >= 0] and [d > 0]: the true division gives
    the double nearest to the quotient, a 53-bit mantissa at the
    quotient's binary exponent, and [int] drops its fraction. *)
Definition int_true_div (n d : Z) : Z :=
  if n =? 0 then 0
  else
    let k := 52 - binade n d in
    if 0 <=? k
    then round_half_even (n * 2 ^ k) d / 2 ^ k
    else round_half_even n (d * 2 ^ (- k)) * 2 ^ (- k).

(** [int(td.total_seconds())] for a timedelta of [us] microseconds:
    [total_seconds] divides the microseconds by [10**6]. *)
Definition int_total_seconds (us : Z) : Z :=
  if 0 <=? us then int_true_div us 1000000
  else - int_true_div (- us) 1000000.

(** [int((a - b).total_seconds())] *)
Definition seconds_between (a b : datetime) : Z :=
  int_total_seconds (utc_instant a - utc_instant b).

End Datetime.
Export Datetime.

(** ** Effects and the monad of methods *)

Inductive level : Type := DEBUG | INFO | WARNING | ERROR.

(** The two methods the application hands to [run_in]. *)
Inductive callback : Type :=
| awake_preparation_tasks_cb
| awake_preparation_tasks_end_cb.

Global Instance callback_eq_dec : EqDecision callback.
Proof. solve_decision. Defined.

(** The three methods the application hands to [listen_state]. *)
Inductive listener : Type :=
| goodnight_triggered_cb
| awake_triggered_cb
| next_awake_set_cb.

(** A timer handle; the host hands out a new one for every timer. *)
Definition handle := nat.

(** The messages the application logs, with the values interpolated into
    them. *)
Inductive logmsg : Type :=
| MsgInitializing
| MsgInitialized
| MsgLegacyArg (alias key : string)
| MsgMissingArg (key : string)
| MsgInvalidInt (key : string) (value : pyval)
| MsgNextAwakeSet (new : string)
| MsgCurrentTime (current_time : datetime)
| MsgCancelPrep
| MsgScheduledPrep (seconds : Z)
| MsgAlreadyRunning
| MsgWithinWindow
| MsgAfterPrep (current_time prep_time : datetime)
| MsgInvalidDatetime (new : string)
| MsgPerformPrep
| MsgCancelPrepEnd
| MsgScheduledPrepEnd (seconds : Z)
| MsgPerformPrepEnd
| MsgNoGoodmorning
| MsgGoodnightDone
| MsgAwakeDone.

(** One call into the host. *)
Inductive effect : Type :=
| EffLog (lvl : level) (msg : logmsg)
| EffTurnOn (entity : pyval)
| EffTurnOff (entity : pyval)
| EffRunIn (cb : callback) (delay : Z) (h : handle)
| EffCancelTimer (h : handle)
| EffListenState (cb : listener) (entity : pyval) (new : option string).

(** A method: from a state to an outcome, the state left behind and the
    host calls made, oldest first. *)
Definition M (S A : Type) : Type := S -> result A * S * list effect.

Global Instance M_ret {S} : MRet (M S) :=
  fun A a s => (Ok a, s, []).

Global Instance M_bind {S} : MBind (M S) :=
  fun A B k m s =>
    match m s with
    | (Ok a, s1, es1) => let '(r, s2, es2) := k a s1 in (r, s2, es1 ++ es2)
    | (Raise e, s1, es1) => (Raise e, s1, es1)
    end.

Definition raise {S A} (e : exn) : M S A := fun s => (Raise e, s, []).

Definition emit {S} (e : effect) : M S unit := fun s => (Ok tt, s, [e]).

Definition modify {S} (f : S -> S) : M S unit := fun s => (Ok tt, f s, []).

(** [try: body except ValueError: handler] *)
Definition try_except_ValueError {S A} (body handler : M S A) : M S A :=
  fun s =>
    match body s with
    | (Raise ValueError, s1, es1) =>
        let '(r, s2, es2) := handler s1 in (r, s2, es1 ++ es2)
    | other => other
    end.

(** [self.log(msg, level=lvl)] *)
Definition log {S} (lvl : level) (msg : logmsg) : M S unit :=
  emit (EffLog lvl msg).

Definition turn_on {S} (entity : pyval) : M S unit := emit (EffTurnOn entity).
Definition turn_off {S} (entity : pyval) : M S unit := emit (EffTurnOff entity).

Definition listen_state {S} (cb : listener) (entity : pyval)
    (new : option string) : M S unit :=
  emit (EffListenState cb entity new).

Definition outcome {S A} (x : result A * S * list effect) : result A := x.1.1.
Definition final {S A} (x : result A * S * list effect) : S := x.1.2.
Definition effects {S A} (x : result A * S * list effect) : list effect := x.2.

(** ** The application object and the host's timer store *)

Definition FIVE_MINUTES_SECONDS : Z := 5 * 60.

Record App : Type := mkApp {
  turn_off_lights_scene : pyval;
  warm_water_entity : pyval;
  awake_state_entity : pyval;
  next_awake_entity : pyval;
  prep_offset_minutes : Z;
  goodmorning_lights_scene : pyval;
  _local_tz : Z;
  _prep_timer_handle : option handle;
  _prep_end_timer_handle : option handle
}.

Definition set_prep_timer_handle (v : option handle) (a : App) : App :=
  mkApp (turn_off_lights_scene a) (warm_water_entity a) (awake_state_entity a)
        (next_awake_entity a) (prep_offset_minutes a)
        (goodmorning_lights_scene a) (_local_tz a) v (_prep_end_timer_handle a).

Definition set_prep_end_timer_handle (v : option handle) (a : App) : App :=
  mkApp (turn_off_lights_scene a) (warm_water_entity a) (awake_state_entity a)
        (next_awake_entity a) (prep_offset_minutes a)
        (goodmorning_lights_scene a) (_local_tz a) (_prep_timer_handle a) v.

(** The application together with the part of the host it acts on: the
    one-shot timers that are armed and have neither fired nor been
    cancelled, each with its callback and delay, and the next unused
    handle. *)
Record World : Type := mkWorld {
  app_of : App;
  timers : gmap handle (callback * Z);
  next_handle : handle
}.

Definition self : M World App := fun w => (Ok (app_of w), w, []).

Definition set_self (f : App -> App) : M World unit :=
  modify (fun w => mkWorld (f (app_of w)) (timers w) (next_handle w)).

(** [self.run_in(cb, delay)]: arms a timer under a handle never used
    before and returns the handle. *)
Definition run_in (cb : callback) (delay : Z) : M World handle :=
  fun w =>
    let h := next_handle w in
    (Ok h, mkWorld (app_of w) (<[h := (cb, delay)]> (timers w)) (S h),
     [EffRunIn cb delay h]).

(** [self.cancel_timer(h)]: disarms the timer; nothing happens when it is
    not armed. *)
Definition cancel_timer (h : handle) : M World unit :=
  fun w =>
    (Ok tt, mkWorld (app_of w) (delete h (timers w)) (next_handle w),
     [EffCancelTimer h]).

(** ** Configuration loading: [initialize] and its helpers *)

Fixpoint first_alias (args : gmap string pyval) (aliases : list string)
    : option string :=
  match aliases with
  | [] => None
  | alias :: rest =>
      if dict_contains args alias then Some alias else first_alias args rest
  end.

(** [_get_required_arg(key, aliases)]; the empty list stands for both
    [aliases=None] and [aliases=[]], which the source tests alike. *)
Definition _get_required_arg {S} (args : gmap string pyval) (key : string)
    (aliases : list string) : M S pyval :=
  let value := dict_get args key in
  value ← (if is_None value && negb (bool_decide (aliases = []))
           then match first_alias args aliases with
                | Some alias =>
                    log WARNING (MsgLegacyArg alias key);;
                    mret (dict_get args alias)
                | None => mret value
                end
           else mret value);
  if is_None value
  then log ERROR (MsgMissingArg key);; raise ValueError
  else mret value.

(** [_get_int_arg(key, default)] *)
Definition _get_int_arg {S} (args : gmap string pyval) (key : string)
    (dflt : pyval) : M S Z :=
  let value := dict_get_default args key dflt in
  if is_None value
  then log ERROR (MsgMissingArg key);; raise ValueError
  else match int_ value with
       | Ok n => mret n
       | Raise TypeError | Raise ValueError =>
           log ERROR (MsgInvalidInt key value);; raise ValueError
       | Raise e => raise e
       end.

(** [initialize()]: [args] is the application's configuration and
    [local_tz] the offset of [datetime.now().astimezone().tzinfo]. *)
Definition initialize (args : gmap string pyval) (local_tz : Z)
    : M unit App :=
  log INFO MsgInitializing;;
  lights ← _get_required_arg args "turn_off_lights_scene"
             ["turn_off_ligts_scene"];
  ww ← _get_required_arg args "ww_activate" [];
  awake ← _get_required_arg args "awake_state" [];
  next_awake ← _get_required_arg args "next_awake_time" [];
  offset ← _get_int_arg args "prep_offset_minutes" PyNone;
  let goodmorning := dict_get args "goodmorning_lights_scene" in
  listen_state goodnight_triggered_cb awake (Some "sleep");;
  listen_state awake_triggered_cb awake (Some "awake");;
  listen_state next_awake_set_cb next_awake None;;
  log INFO MsgInitialized;;
  mret (mkApp lights ww awake next_awake offset goodmorning local_tz
              None None).

(** A configuration with every required key. *)
Definition sample_args : gmap string pyval :=
  <["turn_off_lights_scene" := PyStr "scene.off"]>
  (<["ww_activate" := PyStr "switch.ww"]>
  (<["awake_state" := PyStr "input_select.awake"]>
  (<["next_awake_time" := PyStr "sensor.next_alarm"]>
  (<["prep_offset_minutes" := PyInt 30]> ∅)))).

(** ** The timestamp parser and the preparation scheduler

    [datetime.fromisoformat] and [datetime.strptime] belong to the Python
    library, and what they accept depends on its version; the scheduler is
    modelled over any pair of such parsers, [None] standing for their
    [ValueError]. *)

Definition lift {S A} (r : result A) : M S A := fun s => (r, s, []).

Section Scheduler.

Variable fromisoformat : string -> option datetime.
Variable strptime : string -> string -> option datetime.

Definition formats : list string :=
  [ "%Y-%m-%d %H:%M:%S%z";
    "%Y-%m-%d %H:%M:%S";
    "%Y-%m-%dT%H:%M:%S%z";
    "%Y-%m-%dT%H:%M:%S" ].

(** The [for fmt in (...)] loop: the first format that parses wins. *)
Fixpoint try_formats (raw : string) (fmts : list string) : option datetime :=
  match fmts with
  | [] => None
  | fmt :: rest =>
      match strptime raw fmt with
      | Some d => Some d
      | None => try_formats raw rest
      end
  end.

(** The string handed to the library parsers. *)
Definition normalise (value : string) : string :=
  let raw := strip value in
  if endswith raw "Z"%char then (drop_last raw +:+ "+00:00")%string else raw.

(** [_parse_next_awake_time(value)] *)
Definition _parse_next_awake_time (a : App) (value : string)
    : result datetime :=
  let raw := normalise value in
  let parsed :=
    match fromisoformat raw with
    | Some d => Ok d
    | None =>
        match try_formats raw formats with
        | Some d => Ok d
        | None => Raise ValueError
        end
    end in
  match parsed with
  | Ok d =>
      match tzinfo d with
      | None => Ok (replace_tzinfo d (_local_tz a))
      | Some _ => Ok d
      end
  | Raise e => Raise e
  end.

(** [turn_warm_water(state)] *)
Definition turn_warm_water (state : bool) : M World unit :=
  a ← self;
  if state then turn_on (warm_water_entity a)
  else turn_off (warm_water_entity a).

(** [activate_turn_off_lights_scene()] *)
Definition activate_turn_off_lights_scene : M World unit :=
  a ← self; turn_on (turn_off_lights_scene a).

(** [activate_goodmorning_lights_scene()] *)
Definition activate_goodmorning_lights_scene : M World unit :=
  a ← self;
  if negb (truthy (goodmorning_lights_scene a))
  then log WARNING MsgNoGoodmorning
  else turn_on (goodmorning_lights_scene a).

(** [awake_preparation_tasks_end(_)] *)
Definition awake_preparation_tasks_end : M World unit :=
  log INFO MsgPerformPrepEnd;;
  turn_warm_water false;;
  set_self (set_prep_end_timer_handle None).

(** [awake_preparation_tasks(kwargs)] *)
Definition awake_preparation_tasks : M World unit :=
  log INFO MsgPerformPrep;;
  set_self (set_prep_timer_handle None);;
  turn_warm_water true;;
  a ← self;
  match _prep_end_timer_handle a with
  | Some h => log DEBUG MsgCancelPrepEnd;; cancel_timer h
  | None => mret tt
  end;;
  h ← run_in awake_preparation_tasks_end_cb FIVE_MINUTES_SECONDS;
  set_self (set_prep_end_timer_handle (Some h));;
  log DEBUG (MsgScheduledPrepEnd FIVE_MINUTES_SECONDS).

(** [next_awake_set(entity, attribute, old, new, kwargs)], called when
    the host clock reads [now]. *)
Definition next_awake_set (new : string) (now : Z) : M World unit :=
  try_except_ValueError
    (log DEBUG (MsgNextAwakeSet new);;
     a ← self;
     next_awake_time ← lift (_parse_next_awake_time a new);
     prep_time ← lift (sub_minutes next_awake_time (prep_offset_minutes a));
     let current_time := astimezone now (tzinfo next_awake_time) in
     log DEBUG (MsgCurrentTime current_time);;
     match _prep_timer_handle a with
     | Some h =>
         log DEBUG MsgCancelPrep;;
         cancel_timer h;;
         set_self (set_prep_timer_handle None)
     | None => mret tt
     end;;
     if dt_lt current_time prep_time then
       let seconds_until_prep := seconds_between prep_time current_time in
       h ← run_in awake_preparation_tasks_cb seconds_until_prep;
       set_self (set_prep_timer_handle (Some h));;
       log INFO (MsgScheduledPrep seconds_until_prep)
     else if dt_lt current_time next_awake_time then
       a ← self;
       match _prep_end_timer_handle a with
       | Some _ => log DEBUG MsgAlreadyRunning
       | None => log DEBUG MsgWithinWindow;; awake_preparation_tasks
       end
     else log DEBUG (MsgAfterPrep current_time prep_time))
    (log ERROR (MsgInvalidDatetime new)).

(** [goodnight_triggered(entity, attribute, old, new, kwargs)] *)
Definition goodnight_triggered : M World unit :=
  activate_turn_off_lights_scene;;
  turn_warm_water false;;
  log INFO MsgGoodnightDone.

(** [awake_triggered(entity, attribute, old, new, kwargs)] *)
Definition awake_triggered : M World unit :=
  activate_goodmorning_lights_scene;;
  log INFO MsgAwakeDone.

(** *** The host driving the application *)

Definition run_callback (cb : callback) : M World unit :=
  match cb with
  | awake_preparation_tasks_cb => awake_preparation_tasks
  | awake_preparation_tasks_end_cb => awake_preparation_tasks_end
  end.

(** What the host can deliver: a change of the next-wake-time entity to
    [new] while the clock reads [now], the expiry of the armed timer
    [h], and the sleep/awake entity changing to "sleep" or "awake". *)
Inductive event : Type :=
| NextAwakeChanged (new : string) (now : Z)
| TimerFired (h : handle)
| WentToSleep
| WokeUp.

(** An expired timer is no longer armed when its callback runs. *)
Definition disarm (h : handle) (w : World) : World :=
  mkWorld (app_of w) (delete h (timers w)) (next_handle w).

(** One delivery; [None] when the event cannot happen (the timer is not
    armed). *)
Definition deliver (ev : event) (w : World)
    : option (result unit * World * list effect) :=
  match ev with
  | NextAwakeChanged new now => Some (next_awake_set new now w)
  | TimerFired h =>
      match timers w !! h with
      | Some (cb, _) => Some (run_callback cb (disarm h w))
      | None => None
      end
  | WentToSleep => Some (goodnight_triggered w)
  | WokeUp => Some (awake_triggered w)
  end.

(** The application right after a successful [initialize]. *)
Definition started (a : App) : World := mkWorld a ∅ 0%nat.

Inductive reachable : World -> Prop :=
| reachable_started args local_tz a es :
    initialize args local_tz tt = (Ok a, tt, es) ->
    reachable (started a)
| reachable_deliver w ev x :
    reachable w ->
    deliver ev w = Some x ->
    reachable (final x).

(** What the library yields for [raw]: [fromisoformat] first, then the
    formats in their order. *)
Definition library_parse (raw : string) : option datetime :=
  match fromisoformat raw with
  | Some d => Some d
  | None => try_formats raw formats
  end.

End Scheduler.

(** ** A reference instance of the library parsers

    To run the scheduler on concrete strings, the parsers are instantiated
    with the fixed-width core of what the library accepts:
    [YYYY-MM-DD], one separator character, [HH:MM:SS], and an optional
    offset.  [fromisoformat] takes any separator and the offset as
    [+HH:MM]; [strptime] follows the four formats of the source, with the
    colon of [%z] optional.  The theorems below hold for every pair of
    parsers; this instance serves the examples. *)

Module Reference.

Fixpoint digits (n : nat) (s : string) (acc : Z) : option (Z * string) :=
  match n with
  | O => Some (acc, s)
  | S n' =>
      match s with
      | String c s' =>
          match digit_val c with
          | Some d => digits n' s' (10 * acc + d)
          | None => None
          end
      | EmptyString => None
      end
  end.

Definition expect (c : ascii) (s : string) : option string :=
  match s with
  | String a s' => if Ascii.eqb a c then Some s' else None
  | EmptyString => None
  end.

Definition is_leap (y : Z) : bool :=
  ((y mod 4 =? 0) && negb (y mod 100 =? 0)) || (y mod 400 =? 0).

Definition days_in_month (y m : Z) : Z :=
  if m =? 2 then (if is_leap y then 29 else 28)
  else if (m =? 4) || (m =? 6) || (m =? 9) || (m =? 11) then 30 else 31.

Definition days_before_year (y : Z) : Z :=
  let p := y - 1 in p * 365 + p / 4 - p / 100 + p / 400.

Fixpoint days_before_month (y : Z) (m : nat) : Z :=
  match m with
  | O => 0
  | S m' => days_before_month y m' + days_in_month y (Z.of_nat m)
  end.

(** Microseconds from 0001-01-01T00:00:00 to the given civil time. *)
Definition civil_wall (y mo d h mi s : Z) : option Z :=
  if (1 <=? y) && (y <=? 9999) && (1 <=? mo) && (mo <=? 12)
     && (1 <=? d) && (d <=? days_in_month y mo)
     && (h <? 24) && (mi <? 60) && (s <? 60)
  then Some (((((days_before_year y + days_before_month y (Z.to_nat (mo - 1))
                + (d - 1)) * 24 + h) * 60 + mi) * 60 + s) * 1000000)
  else None.

Definition date_time (sep_ok : ascii -> bool) (s : string)
    : option (Z * string) :=
  '(y, s) ← digits 4 s 0;
  s ← expect "-" s;
  '(mo, s) ← digits 2 s 0;
  s ← expect "-" s;
  '(d, s) ← digits 2 s 0;
  match s with
  | String c s =>
      if sep_ok c then
        '(h, s) ← digits 2 s 0;
        s ← expect ":" s;
        '(mi, s) ← digits 2 s 0;
        s ← expect ":" s;
        '(sec, s) ← digits 2 s 0;
        w ← civil_wall y mo d h mi sec;
        Some (w, s)
      else None
  | EmptyString => None
  end.

Definition offset (colon_optional : bool) (s : string) : option Z :=
  match s with
  | String c s =>
      sign ← (if Ascii.eqb c "+" then Some 1
              else if Ascii.eqb c "-" then Some (-1) else None);
      '(h, s) ← digits 2 s 0;
      s ← match expect ":" s with
          | Some r => Some r
          | None => if colon_optional then Some s else None
          end;
      '(mi, s) ← digits 2 s 0;
      if String.eqb s EmptyString && (h <? 24) && (mi <? 60)
      then Some (sign * (h * 60 + mi) * 60 * 1000000)
      else None
  | EmptyString => None
  end.

Definition fromisoformat (s : string) : option datetime :=
  '(w, rest) ← date_time (fun _ => true) s;
  if String.eqb rest EmptyString then Some (mkDatetime w None)
  else (off ← offset false rest; Some (mkDatetime w (Some off))).

Definition strptime (s fmt : string) : option datetime :=
  let shape (sep : ascii) (with_offset : bool) :=
    '(w, rest) ← date_time (Ascii.eqb sep) s;
    if with_offset
    then (off ← offset true rest; Some (mkDatetime w (Some off)))
    else if String.eqb rest EmptyString then Some (mkDatetime w None) else None in
  if String.eqb fmt "%Y-%m-%d %H:%M:%S%z" then shape " "%char true
  else if String.eqb fmt "%Y-%m-%d %H:%M:%S" then shape " "%char false
  else if String.eqb fmt "%Y-%m-%dT%H:%M:%S%z" then shape "T"%char true
  else if String.eqb fmt "%Y-%m-%dT%H:%M:%S" then shape "T"%char false
  else None.

(** The scheduler over the reference parsers. *)
Definition parse := _parse_next_awake_time fromisoformat strptime.
Definition on_next_awake := next_awake_set fromisoformat strptime.
Definition host_deliver := deliver fromisoformat strptime.

(** The host clock at 2024-01-01T00:00:00 UTC, and [h:mi] on that day. *)
Definition midnight : Z := 738885 * 86400 * 1000000.
Definition at_ (h mi : Z) : Z := midnight + (h * 60 + mi) * 60 * 1000000.

Definition sample_app : App :=
  mkApp (PyStr "scene.off") (PyStr "switch.ww") (PyStr "input_select.awake")
        (PyStr "sensor.next_alarm") 30 PyNone 0 None None.

End Reference.

(** ** The vocabulary of the properties *)

Section Vocabulary.

Implicit Types t : gmap handle (callback * Z).

(** A key supplies no value when [args.get(key)] is [None]: the key is
    not in the configuration, or it is there with the value [None]. *)
Definition no_value (args : gmap string pyval) (key : string) : Prop :=
  is_None (dict_get args key) = true.

(** The key is not in the configuration at all. *)
Definition absent (args : gmap string pyval) (key : string) : Prop :=
  args !! key = None.


(** The value [_get_required_arg] settles on for the lights-off scene. *)
Definition lights_value (args : gmap string pyval) : pyval :=
  if is_None (dict_get args "turn_off_lights_scene")
  then dict_get args "turn_off_ligts_scene"
  else dict_get args "turn_off_lights_scene".

(** The configuration [sample_args] with the offset set to [v]. *)
Definition with_offset (v : pyval) : gmap string pyval :=
  <["prep_offset_minutes" := v]> sample_args.


Definition offset_of (x : result App * unit * list effect) : result Z :=
  match outcome x with
  | Ok a => Ok (prep_offset_minutes a)
  | Raise e => Raise e
  end.

(** The armed timers that will call [cb]. *)
Definition live (cb : callback) (t : gmap handle (callback * Z))
    : gmap handle (callback * Z) :=
  filter (fun p => p.2.1 = cb) t.

Definition live_count (cb : callback) (t : gmap handle (callback * Z)) : nat :=
  size (live cb t).

(** The timer store after one host call. *)
Definition apply_effect (e : effect) (t : gmap handle (callback * Z))
    : gmap handle (callback * Z) :=
  match e with
  | EffRunIn cb delay h => <[h := (cb, delay)]> t
  | EffCancelTimer h => delete h t
  | _ => t
  end.

(** [P] holds of the timer store before the first host call and after each
    one. *)
Fixpoint throughout (P : gmap handle (callback * Z) -> Prop)
    (es : list effect) (t : gmap handle (callback * Z)) : Prop :=
  P t /\ match es with
         | [] => True
         | e :: es' => throughout P es' (apply_effect e t)
         end.

Definition at_most_one_each (t : gmap handle (callback * Z)) : Prop :=
  (live_count awake_preparation_tasks_cb t <= 1)%nat
  /\ (live_count awake_preparation_tasks_end_cb t <= 1)%nat.

(** The handles and the timer store agree: handles are below the next
    unused one, every armed timer is the one its handle field names, and a
    handle field that is set names an armed timer of its kind. *)
Record consistent (w : World) : Prop := mkConsistent {
  handles_used :
    forall h x, timers w !! h = Some x -> (h < next_handle w)%nat;
  prep_timer_named :
    forall h d, timers w !! h = Some (awake_preparation_tasks_cb, d) ->
                _prep_timer_handle (app_of w) = Some h;
  prep_end_timer_named :
    forall h d, timers w !! h = Some (awake_preparation_tasks_end_cb, d) ->
                _prep_end_timer_handle (app_of w) = Some h;
  prep_handle_armed :
    forall h, _prep_timer_handle (app_of w) = Some h ->
              exists d, timers w !! h = Some (awake_preparation_tasks_cb, d);
  prep_end_handle_armed :
    forall h, _prep_end_timer_handle (app_of w) = Some h ->
              exists d, timers w !! h = Some (awake_preparation_tasks_end_cb, d)
}.

(** The world once the handle [field] (if set) has been cancelled. *)
Definition cancelled (field : option handle) (t : gmap handle (callback * Z))
    : gmap handle (callback * Z) :=
  match field with Some h => delete h t | None => t end.

(** The world after [next_awake_set] has dealt with the old prep timer. *)
Definition prep_cancelled (w : World) : World :=
  mkWorld (set_prep_timer_handle None (app_of w))
          (cancelled (_prep_timer_handle (app_of w)) (timers w))
          (next_handle w).

Definition cancel_prep_effects (w : World) : list effect :=
  match _prep_timer_handle (app_of w) with
  | Some h => [EffLog DEBUG MsgCancelPrep; EffCancelTimer h]
  | None => []
  end.

(** The world and the host calls of one run of [awake_preparation_tasks]. *)
Definition after_prep (w : World) : World :=
  mkWorld (set_prep_end_timer_handle (Some (next_handle w))
             (set_prep_timer_handle None (app_of w)))
          (<[next_handle w := (awake_preparation_tasks_end_cb, 300)]>
             (cancelled (_prep_end_timer_handle (app_of w)) (timers w)))
          (S (next_handle w)).

Definition prep_effects (w : World) : list effect :=
  [EffLog INFO MsgPerformPrep; EffTurnOn (warm_water_entity (app_of w))]
  ++ match _prep_end_timer_handle (app_of w) with
     | Some h => [EffLog DEBUG MsgCancelPrepEnd; EffCancelTimer h]
     | None => []
     end
  ++ [EffRunIn awake_preparation_tasks_end_cb 300 (next_handle w);
      EffLog DEBUG (MsgScheduledPrepEnd 300)].

(** The world after [next_awake_set] has armed a fresh prep timer. *)
Definition prep_scheduled (w : World) (seconds : Z) : World :=
  mkWorld (set_prep_timer_handle (Some (next_handle w)) (app_of w))
          (<[next_handle w := (awake_preparation_tasks_cb, seconds)]>
             (cancelled (_prep_timer_handle (app_of w)) (timers w)))
          (S (next_handle w)).

Definition after_prep_end (w : World) : World :=
  mkWorld (set_prep_end_timer_handle None (app_of w)) (timers w)
          (next_handle w).

(** How many times the effects start [awake_preparation_tasks]. *)
Definition is_prep_begin (e : effect) : bool :=
  match e with EffLog INFO MsgPerformPrep => true | _ => false end.

Definition is_device_call (e : effect) : bool :=
  match e with EffTurnOn _ | EffTurnOff _ => true | _ => false end.

Definition is_timer_call (e : effect) : bool :=
  match e with EffRunIn _ _ _ | EffCancelTimer _ => true | _ => false end.

Definition count (p : effect -> bool) (es : list effect) : nat :=
  length (List.filter p es).

(** The first host calls of an update that parses. *)
Definition update_prologue (w : World) (new : string) (now : Z)
    (wake : datetime) : list effect :=
  [EffLog DEBUG (MsgNextAwakeSet new);
   EffLog DEBUG (MsgCurrentTime (astimezone now (tzinfo wake)))]
  ++ cancel_prep_effects w.

(** No two armed timers call [cb]. *)
Definition unique (cb : callback) t : Prop :=
  forall h1 h2 d1 d2,
    t !! h1 = Some (cb, d1) -> t !! h2 = Some (cb, d2) -> h1 = h2.

Definition none_live (cb : callback) t : Prop :=
  forall h d, t !! h <> Some (cb, d).

(** Every armed timer calling [cb] has the handle [h]. *)
Definition only (cb : callback) (h : handle) t : Prop :=
  forall i d, t !! i = Some (cb, d) -> i = h.

(** The timer store after a list of host calls. *)
Definition replay (es : list effect) t : gmap handle (callback * Z) :=
  fold_left (fun t e => apply_effect e t) es t.

(** The timer store an event's handler starts from. *)
Definition start_store (ev : event) (w : World)
    : gmap handle (callback * Z) :=
  match ev with
  | TimerFired h => delete h (timers w)
  | _ => timers w
  end.

Definition prep_end_live (w : World) : Prop :=
  exists h d, timers w !! h = Some (awake_preparation_tasks_end_cb, d).

End Vocabulary.

(** ** Configurations and worlds the properties are run on *)

Module Runs.

Import Reference.

Definition wake_at_7 : string := "2024-01-01T07:00:00+00:00".
Definition wake_at_6 : string := "2024-01-01T06:00:00+00:00".
Definition wake_at_8 : string := "2024-01-01T08:00:00+00:00".

(** After the 07:00 update has arrived at 06:00: a prep timer is armed. *)
Definition scheduled_world : World :=
  final (on_next_awake wake_at_7 (at_ 6 0) (started sample_app)).

(** After the 07:00 update has arrived at 06:45: preparation runs. *)
Definition preparing_world : World :=
  final (on_next_awake wake_at_7 (at_ 6 45) (started sample_app)).

(** The application configured with a negative offset. *)
Definition late_app : App :=
  mkApp (PyStr "scene.off") (PyStr "switch.ww") (PyStr "input_select.awake")
        (PyStr "sensor.next_alarm") (-30) PyNone 0 None None.

End Runs.

(** ** Further vocabulary: configuration, device calls, histories *)

Section MoreVocabulary.

Implicit Types t : gmap handle (callback * Z).

Definition is_listen (e : effect) : bool :=
  match e with EffListenState _ _ _ => true | _ => false end.

Definition is_log (e : effect) : bool :=
  match e with EffLog _ _ => true | _ => false end.

Definition is_error_log (e : effect) : bool :=
  match e with EffLog ERROR _ => true | _ => false end.

(** The part of the application object that [initialize] reads from the
    configuration. *)
Definition config_of (a : App) : pyval * pyval * pyval * pyval * Z * pyval * Z :=
  (turn_off_lights_scene a, warm_water_entity a, awake_state_entity a,
   next_awake_entity a, prep_offset_minutes a, goodmorning_lights_scene a,
   _local_tz a).

(** A device call of the scheduler proper: on the warm-water entity. *)
Definition on_warm_water (a : App) (e : effect) : Prop :=
  match e with
  | EffTurnOn entity | EffTurnOff entity => entity = warm_water_entity a
  | _ => True
  end.

(** A device call of any handler: a scene or the warm water is turned on,
    and only the warm water is ever turned off. *)
Definition on_configured_entity (a : App) (e : effect) : Prop :=
  match e with
  | EffTurnOn entity =>
      entity = warm_water_entity a
      \/ entity = turn_off_lights_scene a
      \/ entity = goodmorning_lights_scene a
  | EffTurnOff entity => entity = warm_water_entity a
  | _ => True
  end.

(** Every [cancel_timer] hits a timer that is armed at that point and
    every [run_in] has a delay that is not negative. *)
Fixpoint timer_calls_sound (es : list effect) t : Prop :=
  match es with
  | [] => True
  | e :: es' =>
      match e with
      | EffCancelTimer h => is_Some (t !! h)
      | EffRunIn _ delay _ => 0 <= delay
      | _ => True
      end
      /\ timer_calls_sound es' (apply_effect e t)
  end.

(** Whether a preparation is pending after one more host call: the start
    of [awake_preparation_tasks] opens one, any [turn_off] closes it. *)
Definition pending_step (b : bool) (e : effect) : bool :=
  match e with
  | EffLog INFO MsgPerformPrep => true
  | EffTurnOff _ => false
  | _ => b
  end.

(** The last preparation started has not been followed by a [turn_off]. *)
Definition pending (es : list effect) : bool :=
  fold_left pending_step es false.

(** The four required entities of the application object are set. *)
Definition required_set (a : App) : Prop :=
  is_None (turn_off_lights_scene a) = false
  /\ is_None (warm_water_entity a) = false
  /\ is_None (awake_state_entity a) = false
  /\ is_None (next_awake_entity a) = false.

(** A string of whitespace only. *)
Fixpoint all_space (s : string) : bool :=
  match s with
  | EmptyString => true
  | String c s' => isspace c && all_space s'
  end.

End MoreVocabulary.

Section Histories.

Variable fromisoformat : string -> option datetime.
Variable strptime : string -> string -> option datetime.

(** A world together with every host call made since start-up. *)
Inductive history : World -> list effect -> Prop :=
| history_started args local_tz a es :
    initialize args local_tz tt = (Ok a, tt, es) ->
    history (started a) es
| history_deliver w tr ev x :
    history w tr ->
    deliver fromisoformat strptime ev w = Some x ->
    history (final x) (tr ++ effects x).

(** The three ways an update can go. *)
Inductive update_case (w : World) (new : string) (now : Z) : Prop :=
| update_unparsed :
    _parse_next_awake_time fromisoformat strptime (app_of w) new = Raise ValueError ->
    next_awake_set fromisoformat strptime new now w
    = (Ok tt, w, [EffLog DEBUG (MsgNextAwakeSet new);
                  EffLog ERROR (MsgInvalidDatetime new)]) ->
    update_case w new now
| update_overflow wake :
    _parse_next_awake_time fromisoformat strptime (app_of w) new = Ok wake ->
    in_range (wall wake - prep_offset_minutes (app_of w) * 60 * 1000000)
    = false ->
    next_awake_set fromisoformat strptime new now w
    = (Raise OverflowError, w, [EffLog DEBUG (MsgNextAwakeSet new)]) ->
    update_case w new now
| update_parsed wake prep :
    _parse_next_awake_time fromisoformat strptime (app_of w) new = Ok wake ->
    sub_minutes wake (prep_offset_minutes (app_of w)) = Ok prep ->
    update_case w new now.

End Histories.

Module MoreRuns.

Import Reference Runs.

(** The same instant as [wake_at_7], written in another offset. *)
Definition wake_at_7_cet : string := "2024-01-01T08:00:00+01:00".

(** A wake time whose preparation time would lie before year 1. *)
Definition wake_in_year_1 : string := "0001-01-01T00:00:00".

(** A configuration that names the lights-off scene by the legacy key
    only. *)
Definition legacy_args : gmap string pyval :=
  <["turn_off_ligts_scene" := PyStr "scene.legacy"]>
    (delete "turn_off_lights_scene" sample_args).

(** The host calls made up to [preparing_world]. *)
Definition preparing_trace : list effect :=
  effects (initialize sample_args 0 tt)
  ++ effects (on_next_awake wake_at_7 (at_ 6 45) (started sample_app)).

End MoreRuns.

(** ** The accepted shapes and the timezone policy, as specified *)



Module Configured.


(** The sample configuration with a good-morning scene, and the
    application it starts. *)
Definition morning_args : gmap string pyval :=
  <["goodmorning_lights_scene" := PyStr "scene.morning"]> sample_args.

Definition morning_app : App :=
  mkApp (PyStr "scene.off") (PyStr "switch.ww") (PyStr "input_select.awake")
        (PyStr "sensor.next_alarm") 30 (PyStr "scene.morning") 0 None None.

(** The sample configuration with the good-morning scene set to the empty
    string, and the application it starts. *)
Definition empty_scene_args : gmap string pyval :=
  <["goodmorning_lights_scene" := PyStr EmptyString]> sample_args.

Definition empty_scene_app : App :=
  mkApp (PyStr "scene.off") (PyStr "switch.ww") (PyStr "input_select.awake")
        (PyStr "sensor.next_alarm") 30 (PyStr EmptyString) 0 None None.

End Configured.

(** * Properties *)

Example initialize_sample :
  outcome (initialize sample_args 0 tt)
  = Ok (mkApp (PyStr "scene.off") (PyStr "switch.ww")
              (PyStr "input_select.awake") (PyStr "sensor.next_alarm")
              30 PyNone 0 None None).
Proof. vm_compute. reflexivity. Qed.

(** ** Strings *)

Section StringFacts.

#[local] Arguments String.append !_ _ / : simpl nomatch.








End StringFacts.

(** ** The timestamp parser *)

Section ParserFacts.

Variable fromisoformat : string -> option datetime.
Variable strptime : string -> string -> option datetime.

Local Abbreviation parse := (_parse_next_awake_time fromisoformat strptime).
Local Abbreviation try_formats := (try_formats strptime).
Local Abbreviation library_parse := (library_parse fromisoformat strptime).

Lemma try_formats_Some raw fmts :
  is_Some (try_formats raw fmts)
  <-> exists fmt, fmt ∈ fmts /\ is_Some (strptime raw fmt).
Proof.
  induction fmts as [|f fmts IH]; simpl.
  - split; [intros [? [=]] | intros (? & H & _); inversion H].
  - destruct (strptime raw f) as [d|] eqn:E.
    + split; [intros _; exists f; split; [left | rewrite E; eauto] | eauto].
    + rewrite IH. split.
      * intros (g & Hg & Hs). exists g. split; [now right | exact Hs].
      * intros (g & Hg & Hs). apply elem_of_cons in Hg as [-> | Hg].
        -- rewrite E in Hs. destruct Hs as [? [=]].
        -- eauto.
Qed.

Lemma parse_library (a : App) (value : string) :
  parse a value =
  match library_parse (normalise value) with
  | Some d => Ok (match tzinfo d with
                  | None => replace_tzinfo d (_local_tz a)
                  | Some _ => d
                  end)
  | None => Raise ValueError
  end.
Proof.
  unfold _parse_next_awake_time, library_parse.
  destruct (fromisoformat (normalise value)) as [d|].
  - now destruct (tzinfo d).
  - destruct (try_formats (normalise value) formats) as [d|];
      [now destruct (tzinfo d) | reflexivity].
Qed.


Lemma parse_only_ValueError (a : App) (value : string) (e : exn) :
  parse a value = Raise e -> e = ValueError.
Proof.
  rewrite parse_library.
  destruct (library_parse (normalise value)); congruence.
Qed.


End ParserFacts.

(** ** Configuration loading *)

Section ConfigFacts.

Lemma get_required_arg_plain {S} args key (s : S) :
  _get_required_arg args key [] s =
  if is_None (dict_get args key)
  then (Raise ValueError, s, [EffLog ERROR (MsgMissingArg key)])
  else (Ok (dict_get args key), s, []).
Proof.
  unfold _get_required_arg. rewrite andb_false_r.
  cbv [mbind M_bind mret M_ret].
  destruct (is_None (dict_get args key)); reflexivity.
Qed.

Lemma get_required_arg_alias {S} args key alias (s : S) :
  _get_required_arg args key [alias] s =
  if is_None (dict_get args key)
  then if dict_contains args alias
       then if is_None (dict_get args alias)
            then (Raise ValueError, s,
                  [EffLog WARNING (MsgLegacyArg alias key);
                   EffLog ERROR (MsgMissingArg key)])
            else (Ok (dict_get args alias), s,
                  [EffLog WARNING (MsgLegacyArg alias key)])
       else (Raise ValueError, s, [EffLog ERROR (MsgMissingArg key)])
  else (Ok (dict_get args key), s, []).
Proof.
  unfold _get_required_arg. simpl first_alias.
  destruct (is_None (dict_get args key)) eqn:Ek; simpl.
  - destruct (dict_contains args alias); simpl.
    + cbv [mbind M_bind mret M_ret log emit raise].
      destruct (is_None (dict_get args alias)); reflexivity.
    + cbv [mbind M_bind mret M_ret log emit raise].
      rewrite Ek. reflexivity.
  - cbv [mbind M_bind mret M_ret]. rewrite Ek. reflexivity.
Qed.

Lemma not_contains_no_value args key :
  dict_contains args key = false -> is_None (dict_get args key) = true.
Proof.
  unfold dict_contains, dict_get. intros H.
  apply bool_decide_eq_false in H.
  destruct (args !! key); [exfalso; apply H; eauto | reflexivity].
Qed.

Lemma get_int_arg_outcome {S} args key (s : S) :
  outcome (_get_int_arg args key PyNone s) =
  match int_ (dict_get args key) with
  | Ok n => Ok n
  | Raise OverflowError => Raise OverflowError
  | Raise _ => Raise ValueError
  end.
Proof.
  unfold _get_int_arg, dict_get_default, dict_get.
  destruct (default PyNone (args !! key)) as [|b|z|f|str|l|l] eqn:E;
    try reflexivity.
  - destruct f as [m e|neg|]; reflexivity.
  - simpl. destruct (int_of_str str); reflexivity.
Qed.

Lemma get_int_arg_effects {S} args key (s : S) :
  effects (_get_int_arg args key PyNone s) =
  match int_ (dict_get args key) with
  | Ok _ | Raise OverflowError => []
  | Raise _ =>
      [EffLog ERROR (if is_None (dict_get args key)
                     then MsgMissingArg key
                     else MsgInvalidInt key (dict_get args key))]
  end.
Proof.
  unfold _get_int_arg, dict_get_default, dict_get.
  destruct (default PyNone (args !! key)) as [|b|z|f|str|l|l] eqn:E;
    try reflexivity.
  - destruct f as [m e|neg|]; reflexivity.
  - simpl. destruct (int_of_str str); reflexivity.
Qed.

Lemma get_int_arg_state {S} args key (s : S) :
  final (_get_int_arg args key PyNone s) = s.
Proof.
  unfold _get_int_arg, dict_get_default.
  destruct (default PyNone (args !! key)) as [|b|z|f|str|l|l];
    try reflexivity.
  - destruct f as [m e|neg|]; reflexivity.
  - simpl. destruct (int_of_str str); reflexivity.
Qed.

Lemma get_int_arg_eq {S} args key (s : S) :
  _get_int_arg args key PyNone s =
  (match int_ (dict_get args key) with
   | Ok n => Ok n
   | Raise OverflowError => Raise OverflowError
   | Raise _ => Raise ValueError
   end, s,
   match int_ (dict_get args key) with
   | Ok _ | Raise OverflowError => []
   | Raise _ =>
       [EffLog ERROR (if is_None (dict_get args key)
                      then MsgMissingArg key
                      else MsgInvalidInt key (dict_get args key))]
   end).
Proof.
  rewrite <- get_int_arg_outcome with (s := s).
  rewrite <- get_int_arg_effects with (s := s).
  rewrite <- (get_int_arg_state args key s) at 3.
  now destruct (_get_int_arg args key PyNone s) as [[r s'] es].
Qed.

Ltac run_initialize :=
  unfold initialize;
  cbv [mbind M_bind mret M_ret log emit listen_state raise];
  rewrite get_required_arg_alias.

Ltac next_required args key :=
  cbv beta iota; rewrite get_required_arg_plain;
  destruct (is_None (dict_get args key)) eqn:?; cbv beta iota.

Ltac split_initialize args :=
  destruct (is_None (dict_get args "turn_off_lights_scene")) eqn:Hlights;
  [ destruct (dict_contains args "turn_off_ligts_scene") eqn:Hcontains;
    [ destruct (is_None (dict_get args "turn_off_ligts_scene")) eqn:Halias
    | pose proof (not_contains_no_value _ _ Hcontains) as Halias ] | ];
  cbv beta iota;
  try (next_required args "ww_activate";
       [ | next_required args "awake_state";
           [ | next_required args "next_awake_time";
               [ | rewrite get_int_arg_eq;
                   destruct (int_ (dict_get args "prep_offset_minutes"))
                     as [n | [ | | ]] eqn:Hint ] ] ]).

Lemma initialize_raises args tz :
  raises (outcome (initialize args tz tt))
  <-> (no_value args "turn_off_lights_scene"
       /\ no_value args "turn_off_ligts_scene")
      \/ no_value args "ww_activate"
      \/ no_value args "awake_state"
      \/ no_value args "next_awake_time"
      \/ raises (int_ (dict_get args "prep_offset_minutes")).
Proof.
  unfold no_value. run_initialize.
  split_initialize args; simpl; rewrite ?Halias; simpl;
    intuition congruence.
Qed.

Lemma initialize_Ok args tz a es :
  initialize args tz tt = (Ok a, tt, es) ->
  a = mkApp (lights_value args) (dict_get args "ww_activate")
            (dict_get args "awake_state") (dict_get args "next_awake_time")
            (prep_offset_minutes a)
            (dict_get args "goodmorning_lights_scene") tz None None
  /\ int_ (dict_get args "prep_offset_minutes") = Ok (prep_offset_minutes a).
Proof.
  unfold lights_value. run_initialize.
  split_initialize args; simpl; try discriminate;
    intros [= <- <-]; split; reflexivity.
Qed.


Lemma initialize_listens args tz a es :
  initialize args tz tt = (Ok a, tt, es) ->
  EffListenState goodnight_triggered_cb (awake_state_entity a) (Some "sleep")
  ∈ es.
Proof.
  run_initialize.
  split_initialize args; simpl; try discriminate;
    intros [= <- <-]; cbn [awake_state_entity]; set_solver.
Qed.

End ConfigFacts.

Section ConfigTheorems.

Lemma dict_get_insert_ne args k k' v :
  k <> k' -> dict_get (<[k := v]> args) k' = dict_get args k'.
Proof. intros H. unfold dict_get. now rewrite lookup_insert_ne. Qed.


Lemma dict_get_insert_eq args k v : dict_get (<[k := v]> args) k = v.
Proof. unfold dict_get. now rewrite lookup_insert_eq. Qed.


(** C9: [_get_int_arg] raises exactly when [int()] raises on the
    configured value and otherwise returns what [int()] returns, so the
    float 30.5 and the string "30" both start the application with the
    offset 30 (and -30.5 gives -30), while "abc", "30.5" and [None] are
    refused with [ValueError]. *)
Theorem offset_converted_by_int :
  (forall (args : gmap string pyval) (key : string),
      (raises (outcome (_get_int_arg args key PyNone tt))
       <-> raises (int_ (dict_get args key)))
      /\ (forall n, int_ (dict_get args key) = Ok n ->
            outcome (_get_int_arg args key PyNone tt) = Ok n))
  /\ (forall args tz a es,
        initialize args tz tt = (Ok a, tt, es) ->
        int_ (dict_get args "prep_offset_minutes")
        = Ok (prep_offset_minutes a))
  /\ (forall args tz v,
        ~ raises (outcome (initialize args tz tt)) ->
        (raises (outcome (initialize
                   (<["prep_offset_minutes" := v]> args) tz tt))
         <-> raises (int_ v)))
  /\ offset_of (initialize (with_offset (PyFloat (Finite 61 (-1)))) 0 tt)
     = Ok 30
  /\ offset_of (initialize (with_offset (PyFloat (Finite (-61) (-1)))) 0 tt)
     = Ok (-30)
  /\ offset_of (initialize (with_offset (PyStr "30")) 0 tt) = Ok 30
  /\ offset_of (initialize (with_offset (PyStr "abc")) 0 tt)
     = Raise ValueError
  /\ offset_of (initialize (with_offset (PyStr "30.5")) 0 tt)
     = Raise ValueError
  /\ offset_of (initialize (with_offset PyNone) 0 tt) = Raise ValueError.
Proof.
  split; [| split; [| split]].
  - intros args key. rewrite get_int_arg_outcome. split.
    + destruct (int_ (dict_get args key)) as [n | [ | | ]]; simpl; tauto.
    + now intros n ->.
  - intros args tz a es H. now apply initialize_Ok in H.
  - intros args tz v Hok. rewrite initialize_raises in Hok.
    rewrite initialize_raises. unfold no_value in *.
    rewrite !dict_get_insert_ne by discriminate.
    rewrite dict_get_insert_eq. tauto.
  - repeat split; vm_compute; reflexivity.
Qed.

End ConfigTheorems.


(** ** The sleep and awake reactions *)

Ltac run_method :=
  cbv [mbind M_bind mret M_ret log emit raise lift self set_self modify
       turn_on turn_off run_in cancel_timer try_except_ValueError
       turn_warm_water activate_turn_off_lights_scene
       activate_goodmorning_lights_scene
       awake_preparation_tasks awake_preparation_tasks_end
       goodnight_triggered awake_triggered run_callback
       outcome final effects fst snd].

Lemma goodnight_triggered_eq (w : World) :
  goodnight_triggered w
  = (Ok tt, w,
     [EffTurnOn (turn_off_lights_scene (app_of w));
      EffTurnOff (warm_water_entity (app_of w));
      EffLog INFO MsgGoodnightDone]).
Proof. run_method. destruct w; reflexivity. Qed.

Lemma awake_triggered_falsy (w : World) :
  truthy (goodmorning_lights_scene (app_of w)) = false ->
  awake_triggered w
  = (Ok tt, w, [EffLog WARNING MsgNoGoodmorning; EffLog INFO MsgAwakeDone]).
Proof. intros H. run_method. rewrite H. destruct w; reflexivity. Qed.

Lemma awake_triggered_truthy (w : World) :
  truthy (goodmorning_lights_scene (app_of w)) = true ->
  awake_triggered w
  = (Ok tt, w, [EffTurnOn (goodmorning_lights_scene (app_of w));
                EffLog INFO MsgAwakeDone]).
Proof. intros H. run_method. rewrite H. destruct w; reflexivity. Qed.

(** C8: the sleep reaction, which [initialize] registers for the changes of
    the sleep/awake entity to "sleep" and which the host runs on each of
    them, turns the lights-off scene on, then the warm water off, logs, and
    leaves the application object, both timer handles and the armed timers
    as they were. *)
Theorem goodnight_triggered_spec :
  (forall w,
      goodnight_triggered w
      = (Ok tt, w,
         [EffTurnOn (turn_off_lights_scene (app_of w));
          EffTurnOff (warm_water_entity (app_of w));
          EffLog INFO MsgGoodnightDone]))
  /\ (forall fromisoformat strptime w,
        deliver fromisoformat strptime WentToSleep w
        = Some (goodnight_triggered w))
  /\ (forall args tz a es,
        initialize args tz tt = (Ok a, tt, es) ->
        EffListenState goodnight_triggered_cb (awake_state_entity a)
          (Some "sleep") ∈ es).
Proof.
  split; [exact goodnight_triggered_eq |].
  split; [reflexivity | exact initialize_listens].
Qed.

(** C10: the awake reaction tests the truth value of the configured scene,
    which is what [args.get] returned: for every falsy value ([None] when
    the key is missing, the empty string, ...) it logs the warning and
    makes no device call; for every truthy value it turns the scene on.
    Every string but the empty one is truthy.  From the configuration to
    the reaction: started with the scene configured as [v], the
    application turns [v] on when [v] is truthy and otherwise does exactly
    what it does when started without the key. *)
Theorem awake_triggered_spec :
  (forall w, truthy (goodmorning_lights_scene (app_of w)) = false ->
     awake_triggered w
     = (Ok tt, w, [EffLog WARNING MsgNoGoodmorning; EffLog INFO MsgAwakeDone]))
  /\ (forall w, truthy (goodmorning_lights_scene (app_of w)) = true ->
        awake_triggered w
        = (Ok tt, w, [EffTurnOn (goodmorning_lights_scene (app_of w));
                      EffLog INFO MsgAwakeDone]))
  /\ (forall args tz a es, initialize args tz tt = (Ok a, tt, es) ->
        goodmorning_lights_scene a = dict_get args "goodmorning_lights_scene")
  /\ (forall args, absent args "goodmorning_lights_scene" ->
        dict_get args "goodmorning_lights_scene" = PyNone)
  /\ truthy PyNone = false
  /\ truthy (PyStr EmptyString) = false
  /\ (forall s, s <> EmptyString -> truthy (PyStr s) = true)
  /\ (forall args tz v a es,
        initialize (<["goodmorning_lights_scene" := v]> args) tz tt
        = (Ok a, tt, es) ->
        awake_triggered (started a)
        = (Ok tt, started a,
           if truthy v
           then [EffTurnOn v; EffLog INFO MsgAwakeDone]
           else [EffLog WARNING MsgNoGoodmorning; EffLog INFO MsgAwakeDone]))
  /\ (forall args tz a es,
        initialize (delete "goodmorning_lights_scene" args) tz tt
        = (Ok a, tt, es) ->
        awake_triggered (started a)
        = (Ok tt, started a,
           [EffLog WARNING MsgNoGoodmorning; EffLog INFO MsgAwakeDone])).
Proof.
  split; [exact awake_triggered_falsy |].
  split; [exact awake_triggered_truthy |].
  split.
  { intros args tz a es H. apply initialize_Ok in H as [-> _]. reflexivity. }
  split; [intros args H; unfold dict_get; now rewrite H |].
  split; [reflexivity |]. split; [reflexivity |].
  split; [intros [|c s] Hs; [congruence | reflexivity] |].
  split.
  - intros args tz v a es H.
    assert (Hv : goodmorning_lights_scene a = v).
    { apply initialize_Ok in H as [-> _]. cbn [goodmorning_lights_scene].
      apply dict_get_insert_eq. }
    destruct (truthy v) eqn:Ev.
    + rewrite awake_triggered_truthy by (cbn [app_of started]; congruence).
      cbn [app_of started]. now rewrite Hv.
    + apply awake_triggered_falsy. cbn [app_of started]. congruence.
  - intros args tz a es H. apply awake_triggered_falsy.
    apply initialize_Ok in H as [-> _].
    cbn [app_of started goodmorning_lights_scene].
    unfold dict_get. now rewrite lookup_delete_eq.
Qed.

(** ** The preparation scheduler *)

Section SchedulerFacts.

Variable fromisoformat : string -> option datetime.
Variable strptime : string -> string -> option datetime.

Local Abbreviation parse := (_parse_next_awake_time fromisoformat strptime).
Local Abbreviation on_update := (next_awake_set fromisoformat strptime).

Lemma awake_preparation_tasks_eq (w : World) :
  awake_preparation_tasks w = (Ok tt, after_prep w, prep_effects w).
Proof.
  unfold after_prep, prep_effects. run_method. destruct w as [a t n].
  cbn [app_of timers next_handle].
  destruct a as [? ? ? ? ? ? ? p [e|]]; reflexivity.
Qed.

Lemma awake_preparation_tasks_end_eq (w : World) :
  awake_preparation_tasks_end w
  = (Ok tt, after_prep_end w,
     [EffLog INFO MsgPerformPrepEnd;
      EffTurnOff (warm_water_entity (app_of w))]).
Proof. reflexivity. Qed.

Lemma utc_instant_astimezone now tz : utc_instant (astimezone now tz) = now.
Proof. unfold utc_instant, astimezone. simpl. lia. Qed.

Lemma dt_lt_now now tz d :
  dt_lt (astimezone now tz) d = (now <? utc_instant d).
Proof. unfold dt_lt. now rewrite utc_instant_astimezone. Qed.

Lemma on_update_unparsed w new now :
  parse (app_of w) new = Raise ValueError ->
  on_update new now w
  = (Ok tt, w, [EffLog DEBUG (MsgNextAwakeSet new);
                EffLog ERROR (MsgInvalidDatetime new)]).
Proof.
  intros H. unfold next_awake_set. run_method. rewrite H. reflexivity.
Qed.

Lemma on_update_overflow w new now wake e :
  parse (app_of w) new = Ok wake ->
  sub_minutes wake (prep_offset_minutes (app_of w)) = Raise e ->
  on_update new now w
  = (Raise OverflowError, w, [EffLog DEBUG (MsgNextAwakeSet new)]).
Proof.
  intros H1 H2. unfold next_awake_set. run_method. rewrite H1. cbv beta iota.
  assert (e = OverflowError) as ->.
  { unfold sub_minutes in H2. destruct (in_range _); congruence. }
  rewrite H2. reflexivity.
Qed.

Lemma on_update_parsed w new now wake prep :
  parse (app_of w) new = Ok wake ->
  sub_minutes wake (prep_offset_minutes (app_of w)) = Ok prep ->
  on_update new now w =
  let current := astimezone now (tzinfo wake) in
  let pre := update_prologue w new now wake in
  if now <? utc_instant prep then
    let seconds := seconds_between prep current in
    (Ok tt, prep_scheduled w seconds,
     pre ++ [EffRunIn awake_preparation_tasks_cb seconds (next_handle w);
             EffLog INFO (MsgScheduledPrep seconds)])
  else if now <? utc_instant wake then
    match _prep_end_timer_handle (app_of w) with
    | Some _ =>
        (Ok tt, prep_cancelled w, pre ++ [EffLog DEBUG MsgAlreadyRunning])
    | None =>
        (Ok tt, after_prep (prep_cancelled w),
         pre ++ [EffLog DEBUG MsgWithinWindow]
             ++ prep_effects (prep_cancelled w))
    end
  else (Ok tt, prep_cancelled w,
        pre ++ [EffLog DEBUG (MsgAfterPrep current prep)]).
Proof.
  intros H1 H2. unfold next_awake_set. run_method.
  rewrite H1. cbv beta iota. rewrite H2. cbv beta iota.
  rewrite !dt_lt_now.
  unfold update_prologue, cancel_prep_effects, prep_scheduled,
    prep_cancelled, after_prep, prep_effects, cancelled.
  destruct w as [a t n]. cbn [app_of timers next_handle].
  destruct a as [? ? ? ? ? ? ? [p|] [e|]];
    cbn [_prep_timer_handle _prep_end_timer_handle set_prep_timer_handle
         set_prep_end_timer_handle warm_water_entity
         turn_off_lights_scene awake_state_entity next_awake_entity
         prep_offset_minutes goodmorning_lights_scene _local_tz
         app_of timers next_handle];
    destruct (now <? utc_instant prep);
    try destruct (now <? utc_instant wake); reflexivity.
Qed.

End SchedulerFacts.

(** ** Timer stores *)

Section StoreFacts.

Implicit Types t : gmap handle (callback * Z).

Lemma live_lookup cb t h x :
  live cb t !! h = Some x <-> t !! h = Some x /\ x.1 = cb.
Proof. unfold live. now rewrite map_lookup_filter_Some. Qed.

Lemma none_live_empty cb t : none_live cb t -> live cb t = ∅.
Proof.
  intros H. apply map_empty. intros h.
  destruct (live cb t !! h) as [[c d]|] eqn:E; [| reflexivity].
  apply live_lookup in E as [E Hc]. simpl in Hc. subst c.
  now apply H in E.
Qed.

Lemma unique_count cb t : unique cb t -> (live_count cb t <= 1)%nat.
Proof.
  intros Hu. unfold live_count.
  destruct (map_choose_or_empty (live cb t)) as [(h & [c d] & E) | ->].
  - assert (live cb t = {[h := (c, d)]}) as ->.
    { apply map_eq. intros i. destruct (decide (i = h)) as [-> | Hne].
      - now rewrite lookup_singleton_eq.
      - rewrite lookup_singleton_ne by congruence.
        destruct (live cb t !! i) as [[c' d']|] eqn:E'; [| reflexivity].
        apply live_lookup in E as [E Hc], E' as [E' Hc'].
        simpl in Hc, Hc'. subst c c'. destruct Hne. eapply Hu; eassumption. }
    rewrite map_size_singleton. lia.
  - rewrite map_size_empty. lia.
Qed.

Lemma count_unique cb t : (live_count cb t <= 1)%nat -> unique cb t.
Proof.
  unfold live_count. intros Hs h1 h2 d1 d2 E1 E2.
  destruct (decide (h1 = h2)) as [| Hne]; [assumption | exfalso].
  assert (H1 : live cb t !! h1 = Some (cb, d1)) by now apply live_lookup.
  assert (H2 : live cb t !! h2 = Some (cb, d2)) by now apply live_lookup.
  rewrite <- (insert_id _ _ _ H1) in Hs.
  rewrite <- (insert_delete_eq (live cb t)) in Hs.
  rewrite map_size_insert_None in Hs by apply lookup_delete_eq.
  assert (H3 : delete h1 (live cb t) !! h2 = Some (cb, d2))
    by (rewrite lookup_delete_ne; congruence).
  assert (size (delete h1 (live cb t)) <> 0)%nat; [| lia].
  intros Hz. apply map_size_empty_iff in Hz. rewrite Hz in H3.
  discriminate.
Qed.

Lemma none_live_unique cb t : none_live cb t -> unique cb t.
Proof. intros H h1 h2 d1 d2 E. now apply H in E. Qed.

Lemma none_live_delete cb t h : none_live cb t -> none_live cb (delete h t).
Proof.
  intros H i d E. apply lookup_delete_Some in E as [_ E]. now apply H in E.
Qed.

Lemma none_live_insert cb cb' t h d :
  cb' <> cb -> none_live cb t -> none_live cb (<[h := (cb', d)]> t).
Proof.
  intros Hne H i d' E.
  apply lookup_insert_Some in E as [[_ E] | [_ E]];
    [congruence | now apply H in E].
Qed.

Lemma unique_delete cb t h : unique cb t -> unique cb (delete h t).
Proof.
  intros H h1 h2 d1 d2 E1 E2.
  apply lookup_delete_Some in E1 as [_ E1], E2 as [_ E2]. eauto.
Qed.

Lemma unique_insert_other cb cb' t h d :
  cb' <> cb -> unique cb t -> unique cb (<[h := (cb', d)]> t).
Proof.
  intros Hne H h1 h2 d1 d2 E1 E2.
  apply lookup_insert_Some in E1 as [[_ E1] | [_ E1]]; [congruence |].
  apply lookup_insert_Some in E2 as [[_ E2] | [_ E2]]; [congruence |].
  eauto.
Qed.

Lemma unique_insert_fresh cb t h d :
  none_live cb t -> unique cb (<[h := (cb, d)]> t).
Proof.
  intros H h1 h2 d1 d2 E1 E2.
  apply lookup_insert_Some in E1 as [[<- _] | [_ E1]];
    [| now apply H in E1].
  apply lookup_insert_Some in E2 as [[<- _] | [_ E2]];
    [reflexivity | now apply H in E2].
Qed.

(** Cancelling the only timer of a kind leaves none. *)
Lemma none_live_after_cancel cb t h :
  (forall i d, t !! i = Some (cb, d) -> i = h) ->
  none_live cb (delete h t).
Proof.
  intros H i d E. apply lookup_delete_Some in E as [Hne E].
  apply H in E. congruence.
Qed.

Lemma live_singleton cb t h d :
  none_live cb t -> live cb (<[h := (cb, d)]> t) = {[h := (cb, d)]}.
Proof.
  intros H. apply map_eq. intros i.
  destruct (decide (i = h)) as [-> | Hne].
  - rewrite lookup_singleton_eq. apply live_lookup.
    now rewrite lookup_insert_eq.
  - rewrite lookup_singleton_ne by congruence.
    destruct (live cb (<[h:=(cb, d)]> t) !! i) as [[c d']|] eqn:E;
      [| reflexivity].
    apply live_lookup in E as [E Hc]. simpl in Hc. subst c.
    rewrite lookup_insert_ne in E by congruence. now apply H in E.
Qed.

Lemma live_delete_other cb cb' t h d :
  cb' <> cb -> t !! h = Some (cb', d) -> live cb (delete h t) = live cb t.
Proof.
  intros Hne Hh. unfold live. rewrite map_filter_delete.
  apply delete_id. apply map_lookup_filter_None. right.
  intros x Hx. rewrite Hh in Hx. injection Hx as <-. simpl. congruence.
Qed.

End StoreFacts.

(** ** Consistency of handles and timers is preserved *)

Section Preservation.

Ltac project :=
  cbn [app_of timers next_handle _prep_timer_handle _prep_end_timer_handle
       set_prep_timer_handle set_prep_end_timer_handle cancelled] in *.

Ltac open_world w H :=
  destruct w as [[? ? ? ? ? ? ? p e] t n];
  destruct H as [Hused Hprep Hend Hp He]; project.

Ltac lookups :=
  repeat match goal with
    | H : <[_ := _]> _ !! _ = Some _ |- _ =>
        apply lookup_insert_Some in H; destruct H as [[? ?] | [? ?]]
    | H : delete _ _ !! _ = Some _ |- _ =>
        apply lookup_delete_Some in H; destruct H as [? ?]
    | H : (_, _) = (_, _) |- _ => injection H as ? ?
    | H : Some _ = Some _ |- _ => injection H as ?
    | H : _ /\ _ |- _ => destruct H as [? ?]
    end;
  repeat (setoid_rewrite lookup_insert_Some
          || setoid_rewrite lookup_delete_Some).

Ltac learn pf :=
  let T := type of pf in
  lazymatch goal with
  | _ : T |- _ => fail
  | _ => pose proof pf
  end.

(** What the consistency of the old world says about the lookups at
    hand. *)
Ltac known :=
  repeat match goal with
    | Hu : (forall h x, ?t !! h = Some x -> (h < _)%nat),
      E : ?t !! ?i = Some ?x |- _ => learn (Hu i x E)
    | Hn : (forall h d, ?t !! h = Some (?cb, d) -> _ = Some h),
      E : ?t !! ?i = Some (?cb, ?d) |- _ => learn (Hn i d E)
    | Hn : (forall h d, ?t !! h <> Some (?cb, d)),
      E : ?t !! ?i = Some (?cb, ?d) |- _ => exfalso; exact (Hn i d E)
    end.

Ltac armed :=
  repeat match goal with
    | Ha : (forall h, ?f = Some h -> exists d, _), E : ?f = Some ?i |- _ =>
        learn (Ha i E)
    | Ha : (forall h, Some ?i = Some h -> exists d, _) |- _ =>
        learn (Ha i eq_refl)
    end;
  repeat match goal with
    | H : exists d, _ !! _ = Some _ |- _ => destruct H as [? H]
    end.

Ltac apart := first [lia | congruence | intro; subst; congruence].

Ltac field :=
  intros; project;
  try match goal with |- ~ _ => intros ? end;
  lookups; subst; armed; known;
  first [ apart
        | eexists; left; split; [congruence | reflexivity]
        | eexists; right; split; [apart | eassumption]
        | eexists; split; [apart | eassumption]
        | split; [apart | eassumption]
        | solve [eauto]
        | idtac ].

Lemma consistent_prep_cancelled w :
  consistent w ->
  consistent (prep_cancelled w)
  /\ none_live awake_preparation_tasks_cb (timers (prep_cancelled w)).
Proof.
  intros H. unfold prep_cancelled, none_live. open_world w H.
  destruct p as [h|]; project; (split; [constructor |]); field.
Qed.

Lemma consistent_arm_prep w seconds :
  consistent w ->
  none_live awake_preparation_tasks_cb (timers w) ->
  consistent
    (mkWorld (set_prep_timer_handle (Some (next_handle w)) (app_of w))
             (<[next_handle w := (awake_preparation_tasks_cb, seconds)]>
                (timers w))
             (S (next_handle w))).
Proof.
  intros H Hnone. unfold none_live in Hnone. open_world w H.
  constructor; field.
Qed.

Lemma consistent_after_prep w :
  consistent w ->
  none_live awake_preparation_tasks_cb (timers w) ->
  consistent (after_prep w).
Proof.
  intros H Hnone. unfold after_prep, none_live in *. open_world w H.
  destruct e as [h|]; project; constructor; field.
Qed.

Lemma consistent_after_prep_end w h d :
  consistent w ->
  timers w !! h = Some (awake_preparation_tasks_end_cb, d) ->
  consistent
    (mkWorld (set_prep_end_timer_handle None (app_of w))
             (delete h (timers w)) (next_handle w)).
Proof.
  intros H Hh. open_world w H. constructor; field.
Qed.

End Preservation.

(** ** Every reachable world is consistent *)

Section Reachability.

Variable fromisoformat : string -> option datetime.
Variable strptime : string -> string -> option datetime.

Local Abbreviation parse := (_parse_next_awake_time fromisoformat strptime).
Local Abbreviation on_update := (next_awake_set fromisoformat strptime).
Local Abbreviation deliver := (deliver fromisoformat strptime).
Local Abbreviation reachable := (reachable fromisoformat strptime).

Lemma consistent_started a :
  _prep_timer_handle a = None ->
  _prep_end_timer_handle a = None ->
  consistent (started a).
Proof.
  intros Hp He. constructor; simpl; intros h; try rewrite lookup_empty;
    congruence.
Qed.

Lemma consistent_prep_scheduled w seconds :
  consistent w -> consistent (prep_scheduled w seconds).
Proof.
  intros H. apply consistent_prep_cancelled in H as [H Hnone].
  apply (consistent_arm_prep _ seconds) in H; [| exact Hnone].
  now destruct w as [[] ? ?].
Qed.

Lemma after_prep_disarm w h :
  _prep_timer_handle (app_of w) = Some h ->
  after_prep (disarm h w) = after_prep (prep_cancelled w).
Proof.
  intros H. unfold after_prep, disarm, prep_cancelled.
  destruct w as [[] ? ?]. simpl in *. now rewrite H.
Qed.

Lemma on_update_consistent w new now :
  consistent w -> consistent (final (on_update new now w)).
Proof.
  intros H. destruct (parse (app_of w) new) as [wake|e] eqn:Hparse.
  - destruct (sub_minutes wake (prep_offset_minutes (app_of w)))
      as [prep|e] eqn:Hsub.
    + rewrite (on_update_parsed _ _ _ _ _ _ _ Hparse Hsub). cbv zeta.
      pose proof (consistent_prep_cancelled _ H) as [Hc Hnone].
      destruct (now <? utc_instant prep);
        [now apply consistent_prep_scheduled |].
      destruct (now <? utc_instant wake); [| exact Hc].
      destruct (_prep_end_timer_handle (app_of w)); [exact Hc |].
      now apply consistent_after_prep.
    + now rewrite (on_update_overflow _ _ _ _ _ _ _ Hparse Hsub).
  - pose proof (parse_only_ValueError _ _ _ _ _ Hparse) as ->.
    now rewrite (on_update_unparsed _ _ _ _ _ Hparse).
Qed.

Lemma awake_triggered_final w : final (awake_triggered w) = w.
Proof.
  destruct (truthy (goodmorning_lights_scene (app_of w))) eqn:E.
  - now rewrite (awake_triggered_truthy w E).
  - now rewrite (awake_triggered_falsy w E).
Qed.

Lemma deliver_consistent w ev x :
  consistent w -> deliver ev w = Some x -> consistent (final x).
Proof.
  intros H Hd. destruct ev as [new now | h | | ]; simpl in Hd.
  - injection Hd as <-. now apply on_update_consistent.
  - destruct (timers w !! h) as [[[] d]|] eqn:Hh; [| | discriminate];
      injection Hd as <-; simpl run_callback.
    + rewrite awake_preparation_tasks_eq. cbn [final fst snd].
      rewrite (after_prep_disarm _ _ (prep_timer_named _ H _ _ Hh)).
      apply consistent_prep_cancelled in H as [H Hnone].
      now apply consistent_after_prep.
    + rewrite awake_preparation_tasks_end_eq. cbn [final fst snd].
      now apply (consistent_after_prep_end w h d).
  - injection Hd as <-. now rewrite goodnight_triggered_eq.
  - injection Hd as <-. now rewrite awake_triggered_final.
Qed.

Lemma reachable_consistent w : reachable w -> consistent w.
Proof.
  induction 1 as [args tz a es Hinit | w ev x _ IH Hd].
  - apply initialize_Ok in Hinit as [-> _]. now apply consistent_started.
  - now apply (deliver_consistent w ev).
Qed.

End Reachability.

(** ** At most one timer of each kind, also between host calls *)

Section Throughout.

Implicit Types t : gmap handle (callback * Z).

Lemma only_unique cb h t : only cb h t -> unique cb t.
Proof.
  intros H h1 h2 d1 d2 E1 E2. apply H in E1, E2. congruence.
Qed.

Lemma none_live_only cb h t : none_live cb t -> only cb h t.
Proof. intros H i d E. now apply H in E. Qed.

Lemma only_delete cb h h' t : only cb h t -> only cb h (delete h' t).
Proof.
  intros H i d E. apply lookup_delete_Some in E as [_ E]. eauto.
Qed.

Lemma only_insert_other cb cb' h h' d t :
  cb' <> cb -> only cb h t -> only cb h (<[h' := (cb', d)]> t).
Proof.
  intros Hne H i d' E.
  apply lookup_insert_Some in E as [[_ E] | [_ E]]; [congruence | eauto].
Qed.

Lemma only_cancelled cb h t : only cb h t -> none_live cb (delete h t).
Proof. exact (none_live_after_cancel cb t h). Qed.

Lemma prep_is_not_end :
  awake_preparation_tasks_cb <> awake_preparation_tasks_end_cb.
Proof. discriminate. Qed.

Lemma end_is_not_prep :
  awake_preparation_tasks_end_cb <> awake_preparation_tasks_cb.
Proof. discriminate. Qed.

Lemma consistent_only w :
  consistent w ->
  match _prep_timer_handle (app_of w) with
  | Some h => only awake_preparation_tasks_cb h (timers w)
  | None => none_live awake_preparation_tasks_cb (timers w)
  end
  /\ match _prep_end_timer_handle (app_of w) with
     | Some h => only awake_preparation_tasks_end_cb h (timers w)
     | None => none_live awake_preparation_tasks_end_cb (timers w)
     end.
Proof.
  intros [_ Hprep Hend _ _]. split.
  - destruct (_prep_timer_handle (app_of w)) as [h|].
    + intros i d E. apply Hprep in E. congruence.
    + intros i d E. apply Hprep in E. discriminate.
  - destruct (_prep_end_timer_handle (app_of w)) as [h|].
    + intros i d E. apply Hend in E. congruence.
    + intros i d E. apply Hend in E. discriminate.
Qed.

Lemma consistent_at_most_one w :
  consistent w -> at_most_one_each (timers w).
Proof.
  intros H. apply consistent_only in H as [Hp He].
  split; apply unique_count.
  - destruct (_prep_timer_handle (app_of w));
      eauto using only_unique, none_live_unique.
  - destruct (_prep_end_timer_handle (app_of w));
      eauto using only_unique, none_live_unique.
Qed.

End Throughout.

Create HintDb timers discriminated.
#[local] Hint Resolve only_unique none_live_only only_delete
  only_insert_other only_cancelled none_live_unique none_live_delete
  none_live_insert unique_delete unique_insert_other unique_insert_fresh
  prep_is_not_end end_is_not_prep : timers.

Section ThroughoutUpdates.

Variable fromisoformat : string -> option datetime.
Variable strptime : string -> string -> option datetime.

Local Abbreviation parse := (_parse_next_awake_time fromisoformat strptime).
Local Abbreviation on_update := (next_awake_set fromisoformat strptime).
Local Abbreviation deliver := (deliver fromisoformat strptime).
Local Abbreviation reachable := (reachable fromisoformat strptime).

Ltac stores :=
  cbn [throughout apply_effect app replay fold_left final effects fst snd
       timers app_of next_handle cancelled
       _prep_timer_handle _prep_end_timer_handle
       set_prep_timer_handle set_prep_end_timer_handle];
  repeat match goal with
    | |- _ /\ _ => split
    | |- True => exact I
    | |- at_most_one_each _ => split
    | |- (live_count _ _ <= 1)%nat => apply unique_count
    end;
  try reflexivity; eauto 8 with timers.

Lemma on_update_throughout w new now :
  consistent w ->
  throughout at_most_one_each (effects (on_update new now w)) (timers w)
  /\ timers (final (on_update new now w))
     = replay (effects (on_update new now w)) (timers w).
Proof.
  intros H. pose proof (consistent_only _ H) as [Hp He].
  destruct (parse (app_of w) new) as [wake|e] eqn:Hparse.
  - destruct (sub_minutes wake (prep_offset_minutes (app_of w)))
      as [prep|e] eqn:Hsub.
    + rewrite (on_update_parsed _ _ _ _ _ _ _ Hparse Hsub). cbv zeta.
      unfold update_prologue, cancel_prep_effects, prep_effects,
        prep_scheduled, prep_cancelled, after_prep.
      destruct w as [[? ? ? ? ? ? ? [p|] [e|]] t n];
        cbn [app_of timers next_handle _prep_timer_handle
             _prep_end_timer_handle] in *;
        destruct (now <? utc_instant prep);
        try destruct (now <? utc_instant wake); stores.
    + rewrite (on_update_overflow _ _ _ _ _ _ _ Hparse Hsub).
      destruct (_prep_timer_handle (app_of w)),
        (_prep_end_timer_handle (app_of w)); stores.
  - pose proof (parse_only_ValueError _ _ _ _ _ Hparse) as ->.
    rewrite (on_update_unparsed _ _ _ _ _ Hparse).
    destruct (_prep_timer_handle (app_of w)),
      (_prep_end_timer_handle (app_of w)); stores.
Qed.

Lemma deliver_throughout w ev x :
  consistent w ->
  deliver ev w = Some x ->
  throughout at_most_one_each (effects x) (start_store ev w)
  /\ timers (final x) = replay (effects x) (start_store ev w).
Proof.
  intros H Hd. pose proof (consistent_only _ H) as [Hp He].
  destruct ev as [new now | h | | ]; simpl in Hd.
  - injection Hd as <-. now apply on_update_throughout.
  - destruct (timers w !! h) as [[[] d]|] eqn:Hh; [| | discriminate];
      injection Hd as <-; simpl run_callback; cbn [start_store].
    + rewrite awake_preparation_tasks_eq.
      unfold prep_effects, after_prep, disarm.
      destruct w as [[? ? ? ? ? ? ? p [e|]] t n];
        cbn [app_of timers next_handle _prep_timer_handle
             _prep_end_timer_handle] in *;
        destruct p; stores.
    + rewrite awake_preparation_tasks_end_eq.
      unfold after_prep_end, disarm.
      destruct w as [[? ? ? ? ? ? ? [p|] [e|]] t n];
        cbn [app_of timers next_handle _prep_timer_handle
             _prep_end_timer_handle] in *; stores.
  - injection Hd as <-. rewrite goodnight_triggered_eq.
    destruct (_prep_timer_handle (app_of w)),
      (_prep_end_timer_handle (app_of w)); stores.
  - injection Hd as <-.
    destruct (truthy (goodmorning_lights_scene (app_of w))) eqn:E.
    + rewrite (awake_triggered_truthy w E).
      destruct (_prep_timer_handle (app_of w)),
        (_prep_end_timer_handle (app_of w)); stores.
    + rewrite (awake_triggered_falsy w E).
      destruct (_prep_timer_handle (app_of w)),
        (_prep_end_timer_handle (app_of w)); stores.
Qed.

(** C1: in every world the host can drive the application into, at most
    one timer calling [awake_preparation_tasks] and at most one calling
    [awake_preparation_tasks_end] are armed; this also holds before and
    after each single host call a handler makes, and the calls account
    for the timer store the handler leaves.  An update that arrives
    while a prep timer [h] is armed and lies before the new preparation
    time cancels [h] first, then arms one timer, which is the only prep
    timer afterwards. *)
Theorem at_most_one_timer_each :
  (forall w, reachable w -> at_most_one_each (timers w))
  /\ (forall w ev x, reachable w -> deliver ev w = Some x ->
        throughout at_most_one_each (effects x) (start_store ev w)
        /\ timers (final x) = replay (effects x) (start_store ev w))
  /\ (forall w new now wake prep h,
        reachable w ->
        _prep_timer_handle (app_of w) = Some h ->
        parse (app_of w) new = Ok wake ->
        sub_minutes wake (prep_offset_minutes (app_of w)) = Ok prep ->
        now < utc_instant prep ->
        let seconds :=
          seconds_between prep (astimezone now (tzinfo wake)) in
        let x := on_update new now w in
        is_Some (live awake_preparation_tasks_cb (timers w) !! h)
        /\ effects x
           = [EffLog DEBUG (MsgNextAwakeSet new);
              EffLog DEBUG (MsgCurrentTime (astimezone now (tzinfo wake)));
              EffLog DEBUG MsgCancelPrep;
              EffCancelTimer h;
              EffRunIn awake_preparation_tasks_cb seconds (next_handle w);
              EffLog INFO (MsgScheduledPrep seconds)]
        /\ live awake_preparation_tasks_cb (timers (final x))
           = {[next_handle w := (awake_preparation_tasks_cb, seconds)]}
        /\ _prep_timer_handle (app_of (final x)) = Some (next_handle w)).
Proof.
  split; [| split].
  - intros w Hw. apply consistent_at_most_one.
    exact (reachable_consistent _ _ _ Hw).
  - intros w ev x Hw. apply deliver_throughout.
    exact (reachable_consistent _ _ _ Hw).
  - intros w new now wake prep h Hw Hh Hparse Hsub Hnow seconds x.
    apply reachable_consistent in Hw.
    pose proof (consistent_only _ Hw) as [Hp _]. rewrite Hh in Hp.
    subst x seconds.
    rewrite (on_update_parsed _ _ _ _ _ _ _ Hparse Hsub). cbv zeta.
    apply Z.ltb_lt in Hnow. rewrite Hnow.
    unfold update_prologue, cancel_prep_effects, prep_scheduled.
    rewrite Hh. cbn [effects final fst snd timers app_of cancelled app].
    repeat split.
    + destruct (prep_handle_armed _ Hw _ Hh) as [d E].
      exists (awake_preparation_tasks_cb, d). now apply live_lookup.
    + apply live_singleton. now apply only_cancelled.
Qed.

End ThroughoutUpdates.

(** ** What each handler does *)

Section HandlerTheorems.

Variable fromisoformat : string -> option datetime.
Variable strptime : string -> string -> option datetime.

Local Abbreviation parse := (_parse_next_awake_time fromisoformat strptime).
Local Abbreviation on_update := (next_awake_set fromisoformat strptime).
Local Abbreviation reachable := (reachable fromisoformat strptime).

Lemma prep_end_live_handle w :
  consistent w ->
  (prep_end_live w <-> is_Some (_prep_end_timer_handle (app_of w))).
Proof.
  intros H. split.
  - intros (h & d & E). rewrite (prep_end_timer_named _ H _ _ E). eauto.
  - intros [h E]. destruct (prep_end_handle_armed _ H _ E) as [d Hd].
    now exists h, d.
Qed.

(** C2: an update that lands inside the preparation window either finds
    a prep-end timer armed, and then starts no preparation and makes no
    device call, or finds none, and then runs [awake_preparation_tasks]
    once, inside the handler. *)
Theorem window_update_runs_prep_once w new now wake prep :
  reachable w ->
  parse (app_of w) new = Ok wake ->
  sub_minutes wake (prep_offset_minutes (app_of w)) = Ok prep ->
  utc_instant prep <= now < utc_instant wake ->
  let x := on_update new now w in
  (prep_end_live w ->
     x = (Ok tt, prep_cancelled w,
          update_prologue w new now wake ++ [EffLog DEBUG MsgAlreadyRunning])
     /\ count is_prep_begin (effects x) = 0%nat
     /\ count is_device_call (effects x) = 0%nat)
  /\ (~ prep_end_live w ->
        x = (Ok tt, after_prep (prep_cancelled w),
             update_prologue w new now wake
             ++ [EffLog DEBUG MsgWithinWindow]
             ++ effects (awake_preparation_tasks (prep_cancelled w)))
        /\ final (awake_preparation_tasks (prep_cancelled w))
           = after_prep (prep_cancelled w)
        /\ count is_prep_begin (effects x) = 1%nat).
Proof.
  intros Hw Hparse Hsub [Hlo Hhi] x. subst x.
  apply reachable_consistent in Hw.
  rewrite (on_update_parsed _ _ _ _ _ _ _ Hparse Hsub). cbv zeta.
  apply Z.ltb_ge in Hlo. apply Z.ltb_lt in Hhi. rewrite Hlo, Hhi.
  rewrite awake_preparation_tasks_eq.
  rewrite (prep_end_live_handle _ Hw).
  unfold update_prologue, cancel_prep_effects, prep_effects.
  split.
  - intros [e He]. rewrite He.
    destruct (_prep_timer_handle (app_of w)); repeat split.
  - intros Hnone.
    destruct (_prep_end_timer_handle (app_of w)) as [e|] eqn:He;
      [destruct Hnone; eauto |].
    destruct w as [[? ? ? ? ? ? ? [p|] e] t n]; simpl in He; subst e;
      repeat split.
Qed.

(** C3: [awake_preparation_tasks] turns the warm water on, cancels the
    timer its prep-end handle names and arms a new one for 300 seconds,
    which is then the only armed prep-end timer wherever the handle named
    every such timer before — as it does in both places the host can run
    the callback from; [awake_preparation_tasks_end] turns the warm water
    off and clears the handle. *)
Theorem preparation_callbacks_spec :
  FIVE_MINUTES_SECONDS = 300
  /\ (forall w,
        awake_preparation_tasks w = (Ok tt, after_prep w, prep_effects w))
  /\ (forall w,
        (forall h d,
            timers w !! h = Some (awake_preparation_tasks_end_cb, d) ->
            _prep_end_timer_handle (app_of w) = Some h) ->
        live awake_preparation_tasks_end_cb
             (timers (final (awake_preparation_tasks w)))
        = {[next_handle w := (awake_preparation_tasks_end_cb, 300)]})
  /\ (forall w h h' d,
        reachable w ->
        (timers (prep_cancelled w) !! h
         = Some (awake_preparation_tasks_end_cb, d) ->
         _prep_end_timer_handle (app_of (prep_cancelled w)) = Some h)
        /\ (timers (disarm h' w) !! h
            = Some (awake_preparation_tasks_end_cb, d) ->
            _prep_end_timer_handle (app_of (disarm h' w)) = Some h))
  /\ (forall w,
        awake_preparation_tasks_end w
        = (Ok tt, after_prep_end w,
           [EffLog INFO MsgPerformPrepEnd;
            EffTurnOff (warm_water_entity (app_of w))])
        /\ _prep_end_timer_handle (app_of (after_prep_end w)) = None
        /\ timers (after_prep_end w) = timers w).
Proof.
  split; [reflexivity |]. split; [exact awake_preparation_tasks_eq |].
  split; [| split].
  - intros w Hnamed. rewrite awake_preparation_tasks_eq.
    cbn [final fst snd after_prep timers].
    apply live_singleton.
    destruct (_prep_end_timer_handle (app_of w)) as [e|] eqn:He;
      cbn [cancelled].
    + apply only_cancelled. intros i d E. apply Hnamed in E. congruence.
    + intros i d E. apply Hnamed in E. discriminate.
  - intros w h h' d Hw. apply reachable_consistent in Hw.
    split.
    + intros E.
      apply (prep_end_timer_named _ (proj1 (consistent_prep_cancelled _ Hw))
               _ _ E).
    + cbn [disarm timers app_of]. intros E.
      apply lookup_delete_Some in E as [_ E].
      exact (prep_end_timer_named _ Hw _ _ E).
  - intros w. repeat split.
Qed.

(** C4: when the new value does not parse, the handler returns normally
    with the world exactly as it was, having made two host calls: the
    debug log of the value and the error log. *)
Theorem unparseable_update_changes_nothing w new now :
  raises (parse (app_of w) new) ->
  on_update new now w
  = (Ok tt, w, [EffLog DEBUG (MsgNextAwakeSet new);
                EffLog ERROR (MsgInvalidDatetime new)]).
Proof.
  intros H. destruct (parse (app_of w) new) as [d|e] eqn:Hparse;
    [destruct H |].
  pose proof (parse_only_ValueError _ _ _ _ _ Hparse) as ->.
  now apply on_update_unparsed.
Qed.

Lemma sub_minutes_earlier wake m prep :
  sub_minutes wake m = Ok prep -> 0 <= m ->
  utc_instant prep <= utc_instant wake.
Proof.
  unfold sub_minutes, utc_instant. destruct (in_range _); [| discriminate].
  intros [= <-] Hm. simpl. lia.
Qed.

(** C5, as the code has it: an update whose preparation time, the wake
    time less the offset, is within the range of [datetime], and whose wake
    time and preparation time have both passed (the second follows from the
    first when the offset is not negative) cancels the armed prep timer, if
    any, and makes no other timer or device call; afterwards no prep timer
    is armed, while the prep-end timer and its handle are as before. *)
Theorem past_wake_update_only_cancels_prep w new now wake prep :
  reachable w ->
  parse (app_of w) new = Ok wake ->
  sub_minutes wake (prep_offset_minutes (app_of w)) = Ok prep ->
  utc_instant wake <= now ->
  (0 <= prep_offset_minutes (app_of w) \/ utc_instant prep <= now) ->
  let x := on_update new now w in
  x = (Ok tt, prep_cancelled w,
       update_prologue w new now wake
       ++ [EffLog DEBUG (MsgAfterPrep (astimezone now (tzinfo wake)) prep)])
  /\ live awake_preparation_tasks_cb (timers (final x)) = ∅
  /\ _prep_timer_handle (app_of (final x)) = None
  /\ live awake_preparation_tasks_end_cb (timers (final x))
     = live awake_preparation_tasks_end_cb (timers w)
  /\ _prep_end_timer_handle (app_of (final x))
     = _prep_end_timer_handle (app_of w)
  /\ count is_device_call (effects x) = 0%nat
  /\ count is_timer_call (effects x)
     = match _prep_timer_handle (app_of w) with
       | Some _ => 1%nat
       | None => 0%nat
       end.
Proof.
  intros Hw Hparse Hsub Hwake Hprep x. subst x.
  assert (Hprep' : utc_instant prep <= now).
  { destruct Hprep as [Hm | H]; [| exact H].
    pose proof (sub_minutes_earlier _ _ _ Hsub Hm). lia. }
  apply reachable_consistent in Hw.
  rewrite (on_update_parsed _ _ _ _ _ _ _ Hparse Hsub). cbv zeta.
  apply Z.ltb_ge in Hprep', Hwake. rewrite Hprep', Hwake.
  cbn [final effects fst snd].
  split; [reflexivity |].
  split; [apply none_live_empty, (consistent_prep_cancelled _ Hw) |].
  split; [now destruct (app_of w) |].
  split.
  - unfold prep_cancelled. cbn [timers].
    destruct (_prep_timer_handle (app_of w)) as [h|] eqn:Hh;
      [| reflexivity].
    destruct (prep_handle_armed _ Hw _ Hh) as [d E]. cbn [cancelled].
    apply (live_delete_other _ awake_preparation_tasks_cb _ _ d);
      [discriminate | exact E].
  - split; [unfold prep_cancelled; now destruct (app_of w) |].
    unfold update_prologue, cancel_prep_effects.
    destruct (_prep_timer_handle (app_of w)); split; reflexivity.
Qed.

End HandlerTheorems.

(** ** Runs of the scheduler over the reference parsers *)

Section RunFacts.

Import Reference Runs.

Lemma reachable_sample : reachable fromisoformat strptime (started sample_app).
Proof.
  eapply (reachable_started _ _ sample_args 0). vm_compute. reflexivity.
Defined.

Lemma reachable_scheduled : reachable fromisoformat strptime scheduled_world.
Proof.
  eapply (reachable_deliver _ _ (started sample_app)
            (NextAwakeChanged wake_at_7 (at_ 6 0)));
    [exact reachable_sample | reflexivity].
Defined.

Lemma reachable_preparing : reachable fromisoformat strptime preparing_world.
Proof.
  eapply (reachable_deliver _ _ (started sample_app)
            (NextAwakeChanged wake_at_7 (at_ 6 45)));
    [exact reachable_sample | reflexivity].
Defined.

(** The worked example of the specification: with a 30-minute offset, the
    07:00 update received at 06:00 arms a timer for 1800 seconds; when it
    fires the warm water is turned on and a 300-second timer is armed;
    when that fires the warm water is turned off. *)
Example spec_example :
  effects (on_next_awake wake_at_7 (at_ 6 0) (started sample_app))
  = [EffLog DEBUG (MsgNextAwakeSet wake_at_7);
     EffLog DEBUG (MsgCurrentTime (mkDatetime (at_ 6 0) (Some 0)));
     EffRunIn awake_preparation_tasks_cb 1800 0%nat;
     EffLog INFO (MsgScheduledPrep 1800)]
  /\ (effects <$> host_deliver (TimerFired 0%nat) scheduled_world)
     = Some [EffLog INFO MsgPerformPrep;
             EffTurnOn (PyStr "switch.ww");
             EffRunIn awake_preparation_tasks_end_cb 300 1%nat;
             EffLog DEBUG (MsgScheduledPrepEnd 300)]
  /\ (x ← host_deliver (TimerFired 0%nat) scheduled_world;
      effects <$> host_deliver (TimerFired 1%nat) (final x))
     = Some [EffLog INFO MsgPerformPrepEnd;
             EffTurnOff (PyStr "switch.ww")].
Proof. repeat split; vm_compute; reflexivity. Qed.

(** An offset of infinity makes [int()] raise [OverflowError], which
    [_get_int_arg] does not catch: initialization fails without an error
    log. *)
Example infinite_offset_not_logged :
  initialize (with_offset (PyFloat (Inf false))) 0 tt
  = (Raise OverflowError, tt, [EffLog INFO MsgInitializing]).
Proof. vm_compute. reflexivity. Qed.

(** With the offset -30 the preparation time lies after the wake time,
    and an update that arrives ten minutes after the wake time still arms
    a prep timer. *)
Example negative_offset_arms_after_wake :
  timers (final (on_next_awake wake_at_7 (at_ 7 10) (started late_app)))
  !! 0%nat
  = Some (awake_preparation_tasks_cb, 1200).
Proof. vm_compute. reflexivity. Qed.

End RunFacts.

(** C5 as stated fails: in [preparing_world] (reached by the 07:00 update
    arriving at 06:45, which starts the preparation) the update to 06:00
    arriving at 06:46 has [now >= wake_instant], yet the prep-end timer
    armed by the preparation is still armed afterwards. *)
Lemma past_wake_update_keeps_prep_end_timer :
  ~ (forall w new now wake,
        reachable Reference.fromisoformat Reference.strptime w ->
        Reference.parse (app_of w) new = Ok wake ->
        utc_instant wake <= now ->
        live_count awake_preparation_tasks_cb
          (timers (final (Reference.on_next_awake new now w))) = 0%nat
        /\ live_count awake_preparation_tasks_end_cb
             (timers (final (Reference.on_next_awake new now w))) = 0%nat).
Proof.
  intros H.
  destruct (H Runs.preparing_world Runs.wake_at_6 (Reference.at_ 6 46)
              (mkDatetime (Reference.at_ 6 0) (Some 0))
              reachable_preparing) as [_ Hend].
  - vm_compute. reflexivity.
  - vm_compute. discriminate.
  - vm_compute in Hend. discriminate Hend.
Qed.

(** ** The theorems at concrete inputs *)

Section Witnesses.

Import Reference Runs.

(** The 08:00 update arriving at 06:10 while the 1800-second prep timer is
    armed: the old timer is cancelled, then one timer for 4800 seconds is
    armed. *)
Lemma at_most_one_timer_each_witness :
  at_most_one_each (timers scheduled_world)
  /\ effects (on_next_awake wake_at_8 (at_ 6 10) scheduled_world)
     = [EffLog DEBUG (MsgNextAwakeSet wake_at_8);
        EffLog DEBUG (MsgCurrentTime (mkDatetime (at_ 6 10) (Some 0)));
        EffLog DEBUG MsgCancelPrep;
        EffCancelTimer 0%nat;
        EffRunIn awake_preparation_tasks_cb 4800 1%nat;
        EffLog INFO (MsgScheduledPrep 4800)].
Proof.
  destruct (at_most_one_timer_each fromisoformat strptime)
    as (Hall & _ & Hsecond).
  split.
  - exact (Hall scheduled_world reachable_scheduled).
  - destruct (Hsecond scheduled_world wake_at_8 (at_ 6 10)
                (mkDatetime (at_ 8 0) (Some 0))
                (mkDatetime (at_ 7 30) (Some 0)) 0%nat
                reachable_scheduled)
      as (_ & Heff & _); [reflexivity .. | exact Heff].
Defined.

(** The 07:00 update arriving at 06:45 with no preparation in progress. *)
Lemma window_update_runs_prep_once_witness :
  count is_prep_begin
    (effects (on_next_awake wake_at_7 (at_ 6 45) (started sample_app)))
  = 1%nat.
Proof.
  destruct (window_update_runs_prep_once fromisoformat strptime
              (started sample_app) wake_at_7 (at_ 6 45)
              (mkDatetime (at_ 7 0) (Some 0))
              (mkDatetime (at_ 6 30) (Some 0)) reachable_sample)
    as [_ Hrun];
    [reflexivity | reflexivity
    | vm_compute; split; [discriminate | reflexivity] |].
  destruct Hrun as (_ & _ & Hcount); [| exact Hcount].
  intros (h & d & E). vm_compute in E. discriminate E.
Defined.

(** The preparation callback run right after start-up. *)
Lemma preparation_callbacks_spec_witness :
  live awake_preparation_tasks_end_cb
       (timers (final (awake_preparation_tasks (started sample_app))))
  = {[0%nat := (awake_preparation_tasks_end_cb, 300)]}.
Proof.
  destruct (preparation_callbacks_spec fromisoformat strptime)
    as (_ & _ & Hlive & _).
  apply (Hlive (started sample_app)).
  intros h d E. vm_compute in E. discriminate E.
Defined.

(** A malformed value arriving while a prep timer is armed. *)
Lemma unparseable_update_changes_nothing_witness :
  on_next_awake "not-a-date" (at_ 6 0) scheduled_world
  = (Ok tt, scheduled_world,
     [EffLog DEBUG (MsgNextAwakeSet "not-a-date");
      EffLog ERROR (MsgInvalidDatetime "not-a-date")]).
Proof.
  apply (unparseable_update_changes_nothing fromisoformat strptime).
  vm_compute. exact I.
Defined.

(** The 06:00 update arriving at 06:10 while a prep timer is armed. *)
Lemma past_wake_update_only_cancels_prep_witness :
  live awake_preparation_tasks_cb
    (timers (final (on_next_awake wake_at_6 (at_ 6 10) scheduled_world)))
  = ∅.
Proof.
  destruct (past_wake_update_only_cancels_prep fromisoformat strptime
              scheduled_world wake_at_6 (at_ 6 10)
              (mkDatetime (at_ 6 0) (Some 0))
              (mkDatetime (at_ 5 30) (Some 0)) reachable_scheduled)
    as (_ & Hnone & _);
    [reflexivity | reflexivity | vm_compute; discriminate
    | left; vm_compute; discriminate | exact Hnone].
Defined.


(** The offset given as the string "30". *)
Lemma offset_converted_by_int_witness :
  int_ (dict_get (with_offset (PyStr "30")) "prep_offset_minutes") = Ok 30.
Proof.
  destruct offset_converted_by_int as (_ & Hinit & _).
  apply (Hinit (with_offset (PyStr "30")) 0 sample_app
           (effects (initialize (with_offset (PyStr "30")) 0 tt))).
  vm_compute. reflexivity.
Defined.

(** The listener registered by the sample configuration. *)
Lemma goodnight_triggered_spec_witness :
  EffListenState goodnight_triggered_cb (PyStr "input_select.awake")
    (Some "sleep")
  ∈ effects (initialize sample_args 0 tt).
Proof.
  destruct goodnight_triggered_spec as (_ & _ & Hlistens).
  apply (Hlistens sample_args 0 sample_app). vm_compute. reflexivity.
Defined.

End Witnesses.

(** * Further properties of the code *)

(** ** Exceptions, configuration and device calls of the handlers *)

Ltac open_update w now wake prep :=
  cbv zeta;
  unfold update_prologue, cancel_prep_effects, prep_effects, prep_scheduled,
    prep_cancelled, after_prep, after_prep_end, disarm;
  destruct w as [[? ? ? ? ? ? ? [p|] [e|]] t n];
  cbn [app_of timers next_handle _prep_timer_handle _prep_end_timer_handle
       set_prep_timer_handle set_prep_end_timer_handle cancelled
       warm_water_entity turn_off_lights_scene goodmorning_lights_scene] in *;
  destruct (now <? utc_instant prep) eqn:Hbefore;
  try destruct (now <? utc_instant wake) eqn:Hwithin;
  cbn [final effects outcome fst snd app_of timers next_handle app].

Ltac open_callback w :=
  unfold prep_effects, after_prep, after_prep_end, disarm;
  destruct w as [[? ? ? ? ? ? ? p [e|]] t n];
  cbn [app_of timers next_handle _prep_timer_handle _prep_end_timer_handle
       set_prep_timer_handle set_prep_end_timer_handle cancelled
       warm_water_entity turn_off_lights_scene goodmorning_lights_scene
       final effects outcome fst snd app] in *.

Section HandlerFrames.

Variable fromisoformat : string -> option datetime.
Variable strptime : string -> string -> option datetime.

Local Abbreviation parse := (_parse_next_awake_time fromisoformat strptime).
Local Abbreviation on_update := (next_awake_set fromisoformat strptime).
Local Abbreviation deliver := (deliver fromisoformat strptime).
Local Abbreviation reachable := (reachable fromisoformat strptime).
Local Abbreviation update_case := (update_case fromisoformat strptime).

Lemma sub_minutes_raises wake m e :
  sub_minutes wake m = Raise e ->
  e = OverflowError /\ in_range (wall wake - m * 60 * 1000000) = false.
Proof.
  unfold sub_minutes. destruct (in_range _); [discriminate |].
  now intros [= <-].
Qed.

Lemma sub_minutes_Ok wake m prep :
  sub_minutes wake m = Ok prep ->
  in_range (wall wake - m * 60 * 1000000) = true
  /\ utc_instant prep = utc_instant wake - m * 60 * 1000000.
Proof.
  unfold sub_minutes, utc_instant. destruct (in_range _); [| discriminate].
  intros [= <-]. simpl. split; [reflexivity | lia].
Qed.

Lemma update_cases w new now : update_case w new now.
Proof.
  destruct (parse (app_of w) new) as [wake|e] eqn:Hparse.
  - destruct (sub_minutes wake (prep_offset_minutes (app_of w)))
      as [prep|e] eqn:Hsub.
    + now apply (update_parsed _ _ _ _ _ wake prep).
    + destruct (sub_minutes_raises _ _ _ Hsub) as [-> Hrange].
      apply (update_overflow _ _ _ _ _ wake); try assumption.
      exact (on_update_overflow _ _ _ _ _ _ _ Hparse Hsub).
  - pose proof (parse_only_ValueError _ _ _ _ _ Hparse) as ->.
    apply update_unparsed; [assumption |].
    exact (on_update_unparsed _ _ _ _ _ Hparse).
Qed.

Lemma on_update_parsed_outcome w new now wake prep :
  parse (app_of w) new = Ok wake ->
  sub_minutes wake (prep_offset_minutes (app_of w)) = Ok prep ->
  outcome (on_update new now w) = Ok tt.
Proof.
  intros Hparse Hsub.
  rewrite (on_update_parsed _ _ _ _ _ _ _ Hparse Hsub). cbv zeta.
  destruct (now <? utc_instant prep); [reflexivity |].
  destruct (now <? utc_instant wake); [| reflexivity].
  now destruct (_prep_end_timer_handle (app_of w)).
Qed.

(** X3: a handler either returns normally or lets an [OverflowError]
    escape; the latter happens only in [next_awake_set], exactly when the
    value parses and the preparation time falls outside the range of
    [datetime], and then the world is as it was (the armed prep timer is
    not cancelled). *)
Theorem only_overflow_escapes :
  (forall w ev x,
      deliver ev w = Some x ->
      outcome x = Ok tt
      \/ (outcome x = Raise OverflowError /\ final x = w
          /\ exists new now, ev = NextAwakeChanged new now))
  /\ (forall w new now,
        raises (outcome (on_update new now w))
        <-> exists wake,
              parse (app_of w) new = Ok wake
              /\ in_range (wall wake
                           - prep_offset_minutes (app_of w) * 60 * 1000000)
                 = false).
Proof.
  split.
  - intros w ev x Hd. destruct ev as [new now | h | | ]; simpl in Hd.
    + injection Hd as <-.
      destruct (update_cases w new now) as [_ -> | wake _ _ -> | wake prep H1 H2].
      * now left.
      * right. repeat split. eauto.
      * left. now apply (on_update_parsed_outcome _ _ _ wake prep).
    + destruct (timers w !! h) as [[[] d]|]; [| | discriminate];
        injection Hd as <-; left; simpl run_callback;
        [now rewrite awake_preparation_tasks_eq | reflexivity].
    + injection Hd as <-. left. now rewrite goodnight_triggered_eq.
    + injection Hd as <-. left.
      destruct (truthy (goodmorning_lights_scene (app_of w))) eqn:E.
      * now rewrite (awake_triggered_truthy w E).
      * now rewrite (awake_triggered_falsy w E).
  - intros w new now. split.
    + destruct (update_cases w new now) as [_ -> | wake H1 H2 _ | wake prep H1 H2].
      * intros [].
      * eauto.
      * rewrite (on_update_parsed_outcome _ _ _ _ _ H1 H2). intros [].
    + intros (wake & H1 & H2).
      destruct (update_cases w new now) as [H _ | wake' _ _ -> | wake' prep H1' H2'].
      * congruence.
      * exact I.
      * rewrite H1 in H1'. injection H1' as <-.
        apply sub_minutes_Ok in H2' as [H2' _]. congruence.
Qed.

Lemma deliver_keeps_config w ev x :
  deliver ev w = Some x ->
  config_of (app_of (final x)) = config_of (app_of w).
Proof.
  intros Hd. destruct ev as [new now | h | | ]; simpl in Hd.
  - injection Hd as <-.
    destruct (update_cases w new now) as [_ -> | wake _ _ -> | wake prep H1 H2];
      [reflexivity | reflexivity |].
    rewrite (on_update_parsed _ _ _ _ _ _ _ H1 H2).
    open_update w now wake prep; reflexivity.
  - destruct (timers w !! h) as [[[] d]|]; [| | discriminate];
      injection Hd as <-; simpl run_callback.
    + rewrite awake_preparation_tasks_eq. open_callback w; reflexivity.
    + rewrite awake_preparation_tasks_end_eq. open_callback w; reflexivity.
  - injection Hd as <-. now rewrite goodnight_triggered_eq.
  - injection Hd as <-.
    destruct (truthy (goodmorning_lights_scene (app_of w))) eqn:E.
    + now rewrite (awake_triggered_truthy w E).
    + now rewrite (awake_triggered_falsy w E).
Qed.

(** X8: no handler changes what [initialize] read from the configuration;
    only the two timer handles of the application object ever change. *)
Theorem configuration_never_changes w ev x :
  deliver ev w = Some x ->
  config_of (app_of (final x)) = config_of (app_of w).
Proof. exact (deliver_keeps_config w ev x). Qed.

Ltac each_effect :=
  cbv beta iota;
  repeat first [apply Forall_nil_2 | apply Forall_cons_2]; simpl; auto.

(** X9: the handlers turn on or off nothing but what the configuration
    names: wake-time updates and timer callbacks act on the warm-water
    entity alone, the sleep reaction turns on the lights-off scene, the
    awake reaction the good-morning scene, and nothing but the warm water is
    ever turned off. *)
Theorem device_calls_on_configured_entities w ev x :
  deliver ev w = Some x ->
  Forall (on_configured_entity (app_of w)) (effects x)
  /\ match ev with
     | NextAwakeChanged _ _ | TimerFired _ =>
         Forall (on_warm_water (app_of w)) (effects x)
     | WentToSleep | WokeUp => True
     end.
Proof.
  intros Hd. destruct ev as [new now | h | | ]; simpl in Hd.
  - injection Hd as <-.
    destruct (update_cases w new now) as [_ -> | wake _ _ -> | wake prep H1 H2];
      [split; each_effect | split; each_effect |].
    rewrite (on_update_parsed _ _ _ _ _ _ _ H1 H2).
    open_update w now wake prep; split; each_effect.
  - destruct (timers w !! h) as [[[] d]|]; [| | discriminate];
      injection Hd as <-; simpl run_callback.
    + rewrite awake_preparation_tasks_eq. open_callback w; split; each_effect.
    + rewrite awake_preparation_tasks_end_eq.
      open_callback w; split; each_effect.
  - injection Hd as <-. rewrite goodnight_triggered_eq. split; each_effect.
  - injection Hd as <-.
    destruct (truthy (goodmorning_lights_scene (app_of w))) eqn:E.
    + rewrite (awake_triggered_truthy w E). split; each_effect.
    + rewrite (awake_triggered_falsy w E). split; each_effect.
Qed.

End HandlerFrames.

(** ** Whole seconds through the float *)

Section FloatSeconds.

Lemma round_half_even_bounds num den :
  0 < den ->
  num / den <= round_half_even num den
  /\ 2 * den * round_half_even num den <= 2 * num + den.
Proof.
  intros Hd. unfold round_half_even.
  pose proof (Z.div_mod num den ltac:(lia)) as Hdm.
  pose proof (Z.mod_pos_bound num den Hd) as Hr.
  set (q := num / den) in *. set (r := num mod den) in *.
  destruct (2 * r <? den) eqn:E1; [apply Z.ltb_lt in E1; nia |].
  apply Z.ltb_ge in E1.
  destruct (den <? 2 * r) eqn:E2; [apply Z.ltb_lt in E2; nia |].
  apply Z.ltb_ge in E2.
  destruct (Z.even q); nia.
Qed.

(** A quotient below [2^(e+1)] has a binary exponent of at most [e]. *)
Lemma binade_upper n d e :
  0 < n -> 0 < d -> 0 <= e -> n < d * 2 ^ (e + 1) -> binade n d <= e.
Proof.
  intros Hn Hd He Hlt. unfold binade.
  set (e0 := Z.log2 n - Z.log2 d).
  destruct (Z_le_gt_dec e0 e) as [Hle | Hgt].
  - destruct (if 0 <=? e0 then _ else _); lia.
  - assert (He0 : 0 <= e0) by lia.
    destruct (0 <=? e0) eqn:E; [| apply Z.leb_gt in E; lia].
    assert (Hpow : 2 ^ (e + 1) <= 2 ^ e0) by (apply Z.pow_le_mono_r; lia).
    assert (n < d * 2 ^ e0) by nia.
    assert ((n <? d * 2 ^ e0) = true) as -> by now apply Z.ltb_lt.
    assert (Hd2 : 2 ^ Z.log2 d <= d) by (apply Z.log2_spec; lia).
    assert (Hn3 : 2 ^ Z.log2 n <= n) by (apply Z.log2_spec; lia).
    assert (Hlog : Z.log2 n < Z.log2 d + 1 + (e + 1)).
    { apply (Z.pow_lt_mono_r_iff 2);
        [lia | pose proof (Z.log2_nonneg d); lia |].
      rewrite Z.pow_add_r by (pose proof (Z.log2_nonneg d); lia).
      assert (d < 2 ^ (Z.log2 d + 1)) by (apply Z.log2_spec; lia).
      nia. }
    lia.
Qed.

(** The float is exact enough for [int] to give the integer quotient as
    long as half a unit in the last place stays below [1 / d]. *)
Lemma int_true_div_exact n d e :
  0 < n -> 0 < d -> 0 <= e -> e <= 52 ->
  n < d * 2 ^ (e + 1) ->
  d < 2 ^ (52 - e + 1) ->
  int_true_div n d = n / d.
Proof.
  intros Hn Hd He He52 Hlt Hsmall. unfold int_true_div.
  assert ((n =? 0) = false) as -> by (apply Z.eqb_neq; lia).
  pose proof (binade_upper n d e Hn Hd He Hlt) as Hb.
  set (k := 52 - binade n d) in *.
  assert (Hk : 52 - e <= k) by lia.
  assert ((0 <=? k) = true) as -> by (apply Z.leb_le; lia).
  assert (Hp : 0 < 2 ^ k) by (apply Z.pow_pos_nonneg; lia).
  assert (Hbig : d < 2 * 2 ^ k).
  { assert (2 ^ (52 - e) <= 2 ^ k) by (apply Z.pow_le_mono_r; lia).
    rewrite Z.pow_add_r in Hsmall by lia. lia. }
  destruct (round_half_even_bounds (n * 2 ^ k) d Hd) as [Hlo Hhi].
  set (m := round_half_even (n * 2 ^ k) d) in *.
  pose proof (Z.div_mod n d ltac:(lia)) as Hdm.
  pose proof (Z.mod_pos_bound n d Hd) as Hr.
  set (K := n / d) in *. set (f := n mod d) in *.
  assert (HK : 0 <= K) by (apply Z.div_pos; lia).
  assert (Hlo' : K * 2 ^ k <= m).
  { apply Z.le_trans with (n * 2 ^ k / d); [| exact Hlo].
    apply Z.div_le_lower_bound; [lia | nia]. }
  assert (Hhi' : m < (K + 1) * 2 ^ k) by nia.
  symmetry. apply Z.div_unique with (m - K * 2 ^ k); lia.
Qed.

Lemma int_true_div_nonneg n d : 0 <= n -> 0 < d -> 0 <= int_true_div n d.
Proof.
  intros Hn Hd. unfold int_true_div.
  destruct (n =? 0); [lia |].
  set (k := 52 - binade n d).
  destruct (0 <=? k) eqn:E.
  - apply Z.leb_le in E.
    assert (0 < 2 ^ k) by (apply Z.pow_pos_nonneg; lia).
    apply Z.div_pos; [| lia].
    destruct (round_half_even_bounds (n * 2 ^ k) d Hd) as [Hlo _].
    apply Z.le_trans with (n * 2 ^ k / d); [| exact Hlo].
    apply Z.div_pos; nia.
  - apply Z.leb_gt in E.
    assert (0 < 2 ^ (- k)) by (apply Z.pow_pos_nonneg; lia).
    apply Z.mul_nonneg_nonneg; [| lia].
    destruct (round_half_even_bounds n (d * 2 ^ (- k)) ltac:(nia)) as [Hlo _].
    apply Z.le_trans with (n / (d * 2 ^ (- k))); [| exact Hlo].
    apply Z.div_pos; nia.
Qed.

(** Below 2^34 seconds the float gives the whole seconds exactly. *)
Lemma int_total_seconds_exact us :
  0 <= us < 2 ^ 34 * 1000000 ->
  int_total_seconds us = Z.quot us 1000000.
Proof.
  intros [H0 H1]. rewrite Z.quot_div_nonneg by lia.
  unfold int_total_seconds.
  assert ((0 <=? us) = true) as -> by now apply Z.leb_le.
  destruct (Z.eq_dec us 0) as [-> | Hne]; [reflexivity |].
  apply (int_true_div_exact us 1000000 33); lia.
Qed.

Lemma int_total_seconds_nonneg us : 0 <= us -> 0 <= int_total_seconds us.
Proof.
  intros H. unfold int_total_seconds.
  assert ((0 <=? us) = true) as -> by now apply Z.leb_le.
  now apply int_true_div_nonneg.
Qed.

End FloatSeconds.

(** ** Scheduling: what an update arms, and when *)

Section SchedulingFacts.

Variable fromisoformat : string -> option datetime.
Variable strptime : string -> string -> option datetime.

Local Abbreviation parse := (_parse_next_awake_time fromisoformat strptime).
Local Abbreviation on_update := (next_awake_set fromisoformat strptime).
Local Abbreviation deliver := (deliver fromisoformat strptime).
Local Abbreviation reachable := (reachable fromisoformat strptime).

Lemma seconds_between_now prep now tz :
  seconds_between prep (astimezone now tz)
  = int_total_seconds (utc_instant prep - now).
Proof. unfold seconds_between. now rewrite utc_instant_astimezone. Qed.

Lemma whole_seconds d :
  0 < d ->
  0 <= Z.quot d 1000000
  /\ Z.quot d 1000000 * 1000000 <= d < (Z.quot d 1000000 + 1) * 1000000.
Proof.
  intros Hd. rewrite Z.quot_div_nonneg by lia.
  pose proof (Z.div_pos d 1000000).
  pose proof (Z.mul_div_le d 1000000).
  pose proof (Z.mul_succ_div_gt d 1000000).
  lia.
Qed.

Lemma live_insert_fresh_other cb cb' (t : gmap handle (callback * Z)) h d :
  cb' <> cb -> t !! h = None -> live cb (<[h := (cb', d)]> t) = live cb t.
Proof.
  intros Hne Hfresh. unfold live.
  rewrite map_filter_insert_False by (simpl; congruence).
  now rewrite delete_id.
Qed.

Lemma live_prep_end_after_cancel w :
  consistent w ->
  live awake_preparation_tasks_end_cb
       (cancelled (_prep_timer_handle (app_of w)) (timers w))
  = live awake_preparation_tasks_end_cb (timers w).
Proof.
  intros Hw. destruct (_prep_timer_handle (app_of w)) as [h|] eqn:Hh;
    [| reflexivity].
  destruct (prep_handle_armed _ Hw _ Hh) as [d E]. cbn [cancelled].
  apply (live_delete_other _ awake_preparation_tasks_cb _ _ d);
    [discriminate | exact E].
Qed.

Lemma next_handle_unused w :
  consistent w ->
  cancelled (_prep_timer_handle (app_of w)) (timers w) !! next_handle w = None.
Proof.
  intros Hw.
  destruct (cancelled _ (timers w) !! next_handle w) as [x|] eqn:E;
    [exfalso | reflexivity].
  destruct (_prep_timer_handle (app_of w)); cbn [cancelled] in E.
  - apply lookup_delete_Some in E as [_ E].
    apply (handles_used _ Hw) in E. lia.
  - apply (handles_used _ Hw) in E. lia.
Qed.

(** X1: an update that arrives before the preparation time leaves exactly
    one prep timer armed, under a new handle that the handle field then
    holds, whether or not one was armed before; it makes no device call and
    leaves the prep-end timer alone.  The delay is the whole number of
    seconds until the preparation time: never negative, and the timer is
    due at most one second before the preparation time, never after it.
    (The bound of 2^33 seconds, about 272 years, is the span up to which
    the float that Python computes the seconds in is exact.) *)
Theorem update_before_prep_arms_one_timer w new now wake prep :
  reachable w ->
  parse (app_of w) new = Ok wake ->
  sub_minutes wake (prep_offset_minutes (app_of w)) = Ok prep ->
  now < utc_instant prep ->
  utc_instant prep - now < 2 ^ 33 * 1000000 ->
  let seconds := Z.quot (utc_instant prep - now) 1000000 in
  let x := on_update new now w in
  outcome x = Ok tt
  /\ live awake_preparation_tasks_cb (timers (final x))
     = {[next_handle w := (awake_preparation_tasks_cb, seconds)]}
  /\ _prep_timer_handle (app_of (final x)) = Some (next_handle w)
  /\ live awake_preparation_tasks_end_cb (timers (final x))
     = live awake_preparation_tasks_end_cb (timers w)
  /\ _prep_end_timer_handle (app_of (final x))
     = _prep_end_timer_handle (app_of w)
  /\ count is_device_call (effects x) = 0%nat
  /\ 0 <= seconds
  /\ now + seconds * 1000000 <= utc_instant prep
     < now + (seconds + 1) * 1000000.
Proof.
  intros Hw Hparse Hsub Hnow Hspan seconds x. subst x seconds.
  apply reachable_consistent in Hw.
  rewrite (on_update_parsed _ _ _ _ _ _ _ Hparse Hsub). cbv zeta.
  pose proof Hnow as Hlt. apply Z.ltb_lt in Hlt. rewrite Hlt.
  rewrite seconds_between_now.
  assert (Hwiden : 2 ^ 33 * 1000000 < 2 ^ 34 * 1000000) by reflexivity.
  rewrite int_total_seconds_exact by lia.
  cbn [outcome final effects fst snd prep_scheduled timers app_of].
  split; [reflexivity |].
  split.
  { apply live_singleton.
    exact (proj2 (consistent_prep_cancelled _ Hw)). }
  split; [now destruct (app_of w) |].
  split.
  { rewrite live_insert_fresh_other;
      [now apply live_prep_end_after_cancel | discriminate
      | now apply next_handle_unused]. }
  split; [now destruct (app_of w) |].
  split.
  { unfold update_prologue, cancel_prep_effects.
    now destruct (_prep_timer_handle (app_of w)). }
  pose proof (whole_seconds (utc_instant prep - now)). lia.
Qed.

(** X2: what an update does to the world depends on the wake time only as
    an instant: two values that parse to the same instant, in whatever
    offsets, leave the same timers and handles and make the same timer and
    device calls. *)
Theorem update_depends_on_instant_only w new1 new2 now wake1 wake2 prep1 prep2 :
  parse (app_of w) new1 = Ok wake1 ->
  parse (app_of w) new2 = Ok wake2 ->
  sub_minutes wake1 (prep_offset_minutes (app_of w)) = Ok prep1 ->
  sub_minutes wake2 (prep_offset_minutes (app_of w)) = Ok prep2 ->
  utc_instant wake1 = utc_instant wake2 ->
  final (on_update new1 now w) = final (on_update new2 now w)
  /\ outcome (on_update new1 now w) = outcome (on_update new2 now w)
  /\ List.filter (fun e => negb (is_log e)) (effects (on_update new1 now w))
     = List.filter (fun e => negb (is_log e)) (effects (on_update new2 now w)).
Proof.
  intros P1 P2 S1 S2 Heq.
  rewrite (on_update_parsed _ _ _ _ _ _ _ P1 S1).
  rewrite (on_update_parsed _ _ _ _ _ _ _ P2 S2). cbv zeta.
  rewrite !seconds_between_now.
  apply sub_minutes_Ok in S1 as [_ S1], S2 as [_ S2].
  assert (Hprep : utc_instant prep1 = utc_instant prep2) by lia.
  rewrite Hprep, Heq.
  unfold update_prologue, cancel_prep_effects, prep_effects.
  destruct (now <? utc_instant prep2);
    [| destruct (now <? utc_instant wake2);
       [destruct (_prep_end_timer_handle (app_of w)) eqn:He |]];
    destruct (_prep_timer_handle (app_of w)) eqn:Hp;
    cbn [final outcome effects fst snd];
    repeat split; try reflexivity;
    unfold prep_cancelled; rewrite ?Hp; cbn [app_of set_prep_timer_handle];
    destruct (_prep_end_timer_handle _); reflexivity.
Qed.

(** X12: with an offset of zero or less the preparation time is not before
    the wake time, so the window in which [next_awake_set] starts the
    preparation itself is empty: no update ever runs
    [awake_preparation_tasks] or makes a device call; the preparation can
    only start from the prep timer. *)
Theorem no_immediate_start_without_positive_offset w new now :
  prep_offset_minutes (app_of w) <= 0 ->
  count is_prep_begin (effects (on_update new now w)) = 0%nat
  /\ count is_device_call (effects (on_update new now w)) = 0%nat.
Proof.
  intros Hm.
  destruct (update_cases fromisoformat strptime w new now) as [_ -> | wake _ _ -> | wake prep H1 H2];
    [split; reflexivity | split; reflexivity |].
  rewrite (on_update_parsed _ _ _ _ _ _ _ H1 H2). cbv zeta.
  apply sub_minutes_Ok in H2 as [_ H2].
  unfold update_prologue, cancel_prep_effects.
  destruct (now <? utc_instant prep) eqn:Hb.
  - destruct (_prep_timer_handle (app_of w)); split; reflexivity.
  - assert ((now <? utc_instant wake) = false) as ->.
    { apply Z.ltb_ge in Hb. apply Z.ltb_ge. lia. }
    destruct (_prep_timer_handle (app_of w)); split; reflexivity.
Qed.

Lemma distinct_kinds (t : gmap handle (callback * Z)) h1 h2 d1 d2 :
  t !! h1 = Some (awake_preparation_tasks_cb, d1) ->
  t !! h2 = Some (awake_preparation_tasks_end_cb, d2) ->
  h1 <> h2.
Proof. intros E1 E2 ->. congruence. Qed.

Ltac armed_handles Hw :=
  pose proof (prep_handle_armed _ Hw) as Hp;
  pose proof (prep_end_handle_armed _ Hw) as He.

Ltac is_armed :=
  repeat match goal with
    | H : forall h, Some ?i = Some h -> exists d, _ |- _ =>
        destruct (H i eq_refl) as [? ?]; clear H
    end;
  first
    [ eexists; eassumption
    | eexists; rewrite lookup_delete_ne;
        [eassumption | first [eapply distinct_kinds; eassumption
                             | apply not_eq_sym; eapply distinct_kinds;
                               eassumption]] ].

Ltac sound :=
  cbn [timer_calls_sound apply_effect];
  repeat match goal with
    | |- _ /\ _ => split
    | |- True => exact I
    | |- 0 <= 300 => lia
    | |- is_Some _ => is_armed
    end.

(** X13: in every reachable world, each [cancel_timer] a handler makes
    hits a timer that is armed at that moment, and each [run_in] has a
    delay that is not negative. *)
Theorem timer_calls_are_sound w ev x :
  reachable w ->
  deliver ev w = Some x ->
  timer_calls_sound (effects x) (start_store ev w).
Proof.
  intros Hw Hd. apply reachable_consistent in Hw. armed_handles Hw.
  destruct ev as [new now | h | | ]; simpl in Hd; cbn [start_store].
  - injection Hd as <-.
    destruct (update_cases fromisoformat strptime w new now)
      as [_ -> | wake _ _ -> | wake prep H1 H2];
      [repeat split | repeat split |].
    rewrite (on_update_parsed _ _ _ _ _ _ _ H1 H2). cbv zeta.
    rewrite seconds_between_now.
    pose proof (int_total_seconds_nonneg (utc_instant prep - now)) as Hs.
    open_update w now wake prep; sound;
      apply Z.ltb_lt in Hbefore; lia.
  - destruct (timers w !! h) as [[[] d]|] eqn:Hh; [| | discriminate];
      injection Hd as <-; simpl run_callback.
    + rewrite awake_preparation_tasks_eq. open_callback w; sound.
    + rewrite awake_preparation_tasks_end_eq. open_callback w; sound.
  - injection Hd as <-. rewrite goodnight_triggered_eq. repeat split.
  - injection Hd as <-.
    destruct (truthy (goodmorning_lights_scene (app_of w))) eqn:E.
    + rewrite (awake_triggered_truthy w E). repeat split.
    + rewrite (awake_triggered_falsy w E). repeat split.
Qed.

Lemma deliver_timer w h cb d :
  timers w !! h = Some (cb, d) ->
  deliver (TimerFired h) w = Some (run_callback cb (disarm h w)).
Proof. intros H. simpl. now rewrite H. Qed.

Ltac unfold_lookups E :=
  repeat first
    [ apply lookup_delete_Some in E; destruct E as [? E]
    | apply lookup_insert_Some in E; destruct E as [[? ?] | [? E]];
      [congruence |] ].

(** X7: one whole cycle.  After an update that arrives before the
    preparation time, the expiry of the prep timer turns the warm water on
    and the expiry of the prep-end timer it armed turns the warm water off;
    then no timer is armed, both handles are [None] and the configuration
    is as before, whatever timers were armed when the update arrived. *)
Theorem preparation_cycle_returns_to_idle w new now wake prep :
  reachable w ->
  parse (app_of w) new = Ok wake ->
  sub_minutes wake (prep_offset_minutes (app_of w)) = Ok prep ->
  now < utc_instant prep ->
  let h := next_handle w in
  exists x2 x3,
    deliver (TimerFired h) (final (on_update new now w)) = Some x2
    /\ deliver (TimerFired (S h)) (final x2) = Some x3
    /\ List.filter is_device_call (effects x2)
       = [EffTurnOn (warm_water_entity (app_of w))]
    /\ List.filter is_device_call (effects x3)
       = [EffTurnOff (warm_water_entity (app_of w))]
    /\ timers (final x3) = ∅
    /\ _prep_timer_handle (app_of (final x3)) = None
    /\ _prep_end_timer_handle (app_of (final x3)) = None
    /\ config_of (app_of (final x3)) = config_of (app_of w).
Proof.
  intros Hw Hparse Hsub Hnow h. subst h.
  apply reachable_consistent in Hw.
  pose proof (prep_timer_named _ Hw) as Hpn.
  pose proof (prep_end_timer_named _ Hw) as Hen.
  rewrite (on_update_parsed _ _ _ _ _ _ _ Hparse Hsub). cbv zeta.
  apply Z.ltb_lt in Hnow. rewrite Hnow.
  cbn [final fst snd]. unfold prep_scheduled.
  erewrite deliver_timer by (cbn [timers]; apply lookup_insert_eq).
  simpl run_callback. rewrite awake_preparation_tasks_eq.
  eexists. eexists. split; [reflexivity |].
  cbn [final fst snd after_prep disarm timers next_handle app_of].
  erewrite deliver_timer by (cbn [timers]; apply lookup_insert_eq).
  simpl run_callback. rewrite awake_preparation_tasks_end_eq.
  split; [reflexivity |].
  unfold prep_effects, after_prep_end, disarm.
  destruct w as [[? ? ? ? ? ? ? p e] t n].
  cbn [app_of timers next_handle _prep_timer_handle _prep_end_timer_handle
       set_prep_timer_handle set_prep_end_timer_handle
       warm_water_entity final effects fst snd] in *.
  split; [now destruct e |].
  split; [reflexivity |].
  split; [| repeat split].
  apply map_empty. intros i.
  match goal with |- ?m !! i = None => destruct (m !! i) as [[cb d]|] eqn:E end;
    [exfalso | reflexivity].
  unfold_lookups E. unfold after_prep in E.
  cbn [timers app_of next_handle _prep_end_timer_handle
       set_prep_timer_handle] in E.
  unfold_lookups E.
  destruct e as [e|], p as [p|]; cbn [cancelled] in E; unfold_lookups E;
    destruct cb;
    first [ apply Hpn in E; congruence | apply Hen in E; congruence ].
Qed.

End SchedulingFacts.

(** ** Start-up *)

Ltac init_run :=
  unfold initialize;
  cbv [mbind M_bind mret M_ret log emit listen_state raise];
  rewrite get_required_arg_alias.

Ltac init_next args key :=
  cbv beta iota; rewrite get_required_arg_plain;
  destruct (is_None (dict_get args key)) eqn:?; cbv beta iota.

Ltac init_split args :=
  destruct (is_None (dict_get args "turn_off_lights_scene")) eqn:Hlights;
  [ destruct (dict_contains args "turn_off_ligts_scene") eqn:Hcontains;
    [ destruct (is_None (dict_get args "turn_off_ligts_scene")) eqn:Halias
    | pose proof (not_contains_no_value _ _ Hcontains) as Halias ] | ];
  cbv beta iota;
  try (init_next args "ww_activate";
       [ | init_next args "awake_state";
           [ | init_next args "next_awake_time";
               [ | rewrite get_int_arg_eq;
                   destruct (int_ (dict_get args "prep_offset_minutes"))
                     as [n | [ | | ]] eqn:Hint ] ] ]).

Section StartUp.

Lemma initialize_not_pending args tz :
  pending (effects (initialize args tz tt)) = false.
Proof. init_run. init_split args; reflexivity. Qed.

(** X6: [initialize] fails fast: when it raises, no state listener has
    been registered; when it succeeds it has registered exactly three listeners, in this order: the
    sleep reaction for "sleep" and the awake reaction for "awake" on the
    sleep/awake entity, and the wake-time handler for every change of the
    next-wake-time entity; it has logged no error, and both timer handles
    of the application start as [None]. *)
Theorem initialize_registers_listeners_last args tz :
  (raises (outcome (initialize args tz tt)) ->
     List.filter is_listen (effects (initialize args tz tt)) = [])
  /\ (forall a es,
        initialize args tz tt = (Ok a, tt, es) ->
        List.filter is_listen es
        = [EffListenState goodnight_triggered_cb (awake_state_entity a)
             (Some "sleep");
           EffListenState awake_triggered_cb (awake_state_entity a)
             (Some "awake");
           EffListenState next_awake_set_cb (next_awake_entity a) None]
        /\ head es = Some (EffLog INFO MsgInitializing)
        /\ last es = Some (EffLog INFO MsgInitialized)
        /\ count is_error_log es = 0%nat
        /\ _prep_timer_handle a = None
        /\ _prep_end_timer_handle a = None).
Proof.
  split.
  - init_run. init_split args; simpl; first [reflexivity | intros []].
  - intros a es. init_run.
    init_split args; simpl; try discriminate;
      intros [= <- <-]; repeat split.
Qed.

End StartUp.

(** ** Required arguments and their aliases *)

Section RequiredArgs.

Context {S : Type}.
Implicit Types (args : gmap string pyval) (s : S).

Lemma dict_contains_true args key :
  dict_contains args key = true <-> is_Some (args !! key).
Proof. unfold dict_contains. apply bool_decide_eq_true. Qed.

Lemma first_alias_Some args aliases a :
  first_alias args aliases = Some a -> a ∈ aliases /\ is_Some (args !! a).
Proof.
  induction aliases as [|b rest IH]; simpl; [discriminate |].
  destruct (dict_contains args b) eqn:E.
  - intros [= <-]. split; [left | now apply dict_contains_true].
  - intros H. destruct (IH H). split; [now right | assumption].
Qed.

Lemma first_alias_skips args pre a post :
  (forall b, b ∈ pre -> args !! b = None) ->
  is_Some (args !! a) ->
  first_alias args (pre ++ a :: post) = Some a.
Proof.
  intros Hpre Ha. induction pre as [|b pre IH]; simpl.
  - apply dict_contains_true in Ha. now rewrite Ha.
  - assert (dict_contains args b = false) as ->.
    { apply bool_decide_eq_false. rewrite (Hpre b) by left.
      intros [? [=]]. }
    apply IH. intros c Hc. apply Hpre. now right.
Qed.

Lemma first_alias_None args aliases :
  (forall b, b ∈ aliases -> args !! b = None) ->
  first_alias args aliases = None.
Proof.
  intros H. induction aliases as [|b rest IH]; simpl; [reflexivity |].
  assert (dict_contains args b = false) as ->.
  { apply bool_decide_eq_false. rewrite (H b) by left. intros [? [=]]. }
  apply IH. intros c Hc. apply H. now right.
Qed.

Lemma get_required_arg_eq args key aliases s :
  _get_required_arg args key aliases s =
  if is_None (dict_get args key)
  then match first_alias args aliases with
       | Some a =>
           if is_None (dict_get args a)
           then (Raise ValueError, s,
                 [EffLog WARNING (MsgLegacyArg a key);
                  EffLog ERROR (MsgMissingArg key)])
           else (Ok (dict_get args a), s,
                 [EffLog WARNING (MsgLegacyArg a key)])
       | None => (Raise ValueError, s, [EffLog ERROR (MsgMissingArg key)])
       end
  else (Ok (dict_get args key), s, []).
Proof.
  unfold _get_required_arg.
  destruct (is_None (dict_get args key)) eqn:Ek; simpl.
  - destruct aliases as [|b rest].
    + simpl. cbv [mbind M_bind mret M_ret log emit raise].
      rewrite Ek. reflexivity.
    + rewrite bool_decide_eq_false_2 by discriminate. simpl negb. cbv iota.
      destruct (first_alias args (b :: rest)) as [a|].
      * cbv [mbind M_bind mret M_ret log emit raise].
        destruct (is_None (dict_get args a)); reflexivity.
      * cbv [mbind M_bind mret M_ret log emit raise].
        rewrite Ek. reflexivity.
  - cbv [mbind M_bind mret M_ret]. rewrite Ek. reflexivity.
Qed.

(** X4: [_get_required_arg] never returns [None]: it returns the value of
    the key, or, when the key supplies none, the value of one of the
    aliases; otherwise it raises [ValueError] right after logging the
    missing key at error severity.  It changes no state. *)
Theorem get_required_arg_never_None args key aliases s :
  final (_get_required_arg args key aliases s) = s
  /\ match outcome (_get_required_arg args key aliases s) with
     | Ok v =>
         is_None v = false
         /\ (v = dict_get args key
             \/ (is_None (dict_get args key) = true
                 /\ exists a, a ∈ aliases /\ v = dict_get args a))
     | Raise e =>
         e = ValueError
         /\ last (effects (_get_required_arg args key aliases s))
            = Some (EffLog ERROR (MsgMissingArg key))
     end.
Proof.
  rewrite get_required_arg_eq.
  destruct (is_None (dict_get args key)) eqn:Ek.
  - destruct (first_alias args aliases) as [a|] eqn:Ea.
    + apply first_alias_Some in Ea as [Hin _].
      destruct (is_None (dict_get args a)) eqn:Hv; simpl; eauto 8.
    + simpl. eauto.
  - simpl. eauto.
Qed.

(** X5: the key takes precedence over its aliases: when it supplies a
    value, that value is returned and nothing is logged.  Otherwise the
    first alias that is in the configuration decides, with a warning: its
    value is returned, or, if that value is [None], the lookup fails
    although a later alias might supply a value.  With no alias in the
    configuration the lookup fails without a warning. *)
Theorem alias_precedence args key aliases s :
  (is_None (dict_get args key) = false ->
     _get_required_arg args key aliases s = (Ok (dict_get args key), s, []))
  /\ (forall pre a post,
        is_None (dict_get args key) = true ->
        aliases = pre ++ a :: post ->
        (forall b, b ∈ pre -> args !! b = None) ->
        is_Some (args !! a) ->
        _get_required_arg args key aliases s
        = if is_None (dict_get args a)
          then (Raise ValueError, s,
                [EffLog WARNING (MsgLegacyArg a key);
                 EffLog ERROR (MsgMissingArg key)])
          else (Ok (dict_get args a), s,
                [EffLog WARNING (MsgLegacyArg a key)]))
  /\ (is_None (dict_get args key) = true ->
      (forall b, b ∈ aliases -> args !! b = None) ->
      _get_required_arg args key aliases s
      = (Raise ValueError, s, [EffLog ERROR (MsgMissingArg key)])).
Proof.
  rewrite get_required_arg_eq. split; [| split].
  - now intros ->.
  - intros pre a post Hk -> Hpre Ha. rewrite Hk.
    now rewrite (first_alias_skips _ _ _ _ Hpre Ha).
  - intros Hk Hnone. rewrite Hk. now rewrite (first_alias_None _ _ Hnone).
Qed.

End RequiredArgs.

(** ** Whitespace around the wake time *)

Section Whitespace.

#[local] Arguments String.append !_ _ / : simpl nomatch.

Variable fromisoformat : string -> option datetime.
Variable strptime : string -> string -> option datetime.

Local Abbreviation parse := (_parse_next_awake_time fromisoformat strptime).

Lemma lstrip_all_space ws : all_space ws = true -> lstrip ws = EmptyString.
Proof.
  induction ws as [|c ws IH]; simpl; [reflexivity |].
  intros H. apply andb_true_iff in H as [-> H]. now apply IH.
Qed.

Lemma lstrip_app_space ws s :
  all_space ws = true -> lstrip (ws +:+ s) = lstrip s.
Proof.
  induction ws as [|c ws IH]; simpl; [reflexivity |].
  intros H. apply andb_true_iff in H as [-> H]. now apply IH.
Qed.

Lemma rstrip_all_space ws : all_space ws = true -> rstrip ws = EmptyString.
Proof.
  induction ws as [|c ws IH]; simpl; [reflexivity |].
  intros H. apply andb_true_iff in H as [-> H]. now rewrite IH.
Qed.

Lemma rstrip_app_space s ws :
  all_space ws = true -> rstrip (s +:+ ws) = rstrip s.
Proof.
  intros H. induction s as [|c s IH]; simpl.
  - now apply rstrip_all_space.
  - now rewrite IH.
Qed.

Lemma rstrip_lstrip_app s ws :
  all_space ws = true -> rstrip (lstrip (s +:+ ws)) = rstrip (lstrip s).
Proof.
  intros H. induction s as [|c s IH]; simpl.
  - rewrite lstrip_all_space by assumption. reflexivity.
  - destruct (isspace c); [exact IH |].
    change (String c (s +:+ ws)) with (String c s +:+ ws)%string.
    now apply rstrip_app_space.
Qed.

Lemma strip_surrounded ws1 s ws2 :
  all_space ws1 = true -> all_space ws2 = true ->
  strip (ws1 +:+ s +:+ ws2) = strip s.
Proof.
  intros H1 H2. unfold strip. rewrite lstrip_app_space by assumption.
  now apply rstrip_lstrip_app.
Qed.

(** X10: whitespace before and after the wake time has no influence: a
    value surrounded by any whitespace parses to the same result, or
    fails, as the value itself; in particular a [Z] followed by blanks
    still reads as [+00:00]. *)
Theorem parse_ignores_surrounding_whitespace a ws1 value ws2 :
  all_space ws1 = true ->
  all_space ws2 = true ->
  parse a (ws1 +:+ value +:+ ws2) = parse a value.
Proof.
  intros H1 H2. unfold _parse_next_awake_time, normalise.
  now rewrite strip_surrounded.
Qed.

End Whitespace.

(** ** The accepted timestamps and their timezone *)

Section AcceptedTimestamps.





End AcceptedTimestamps.

(** ** Along a whole run *)

Section AlongRuns.

Variable fromisoformat : string -> option datetime.
Variable strptime : string -> string -> option datetime.

Local Abbreviation parse := (_parse_next_awake_time fromisoformat strptime).
Local Abbreviation on_update := (next_awake_set fromisoformat strptime).
Local Abbreviation deliver := (deliver fromisoformat strptime).
Local Abbreviation reachable := (reachable fromisoformat strptime).
Local Abbreviation history := (history fromisoformat strptime).

Lemma history_reachable w tr : history w tr -> reachable w.
Proof.
  induction 1 as [args tz a es Hinit | w tr ev x _ IH Hd].
  - exact (reachable_started _ _ args tz a es Hinit).
  - exact (reachable_deliver _ _ w ev x IH Hd).
Qed.

Lemma pending_app tr es :
  pending (tr ++ es) = fold_left pending_step es (pending tr).
Proof. unfold pending. apply fold_left_app. Qed.

Ltac settle IH :=
  cbn [fold_left pending_step final fst snd app_of _prep_end_timer_handle
       set_prep_end_timer_handle set_prep_timer_handle];
  intros Hb; first [discriminate Hb | exact (IH Hb) | solve [eauto]].

Lemma pending_handle w tr :
  history w tr ->
  pending tr = true -> is_Some (_prep_end_timer_handle (app_of w)).
Proof.
  induction 1 as [args tz a es Hinit | w tr ev x Hh IH Hd].
  - intros Hp.
    pose proof (initialize_not_pending args tz) as Hn.
    rewrite Hinit in Hn. simpl in Hn. congruence.
  - rewrite pending_app. generalize dependent (pending tr). intros b IH.
    destruct ev as [new now | h | | ]; simpl in Hd.
    + injection Hd as <-.
      destruct (update_cases fromisoformat strptime w new now)
        as [_ -> | wake _ _ -> | wake prep H1 H2];
        [settle IH | settle IH |].
      rewrite (on_update_parsed _ _ _ _ _ _ _ H1 H2).
      open_update w now wake prep; settle IH.
    + destruct (timers w !! h) as [[[] d]|] eqn:Et; [| | discriminate];
        injection Hd as <-; simpl run_callback.
      * rewrite awake_preparation_tasks_eq. open_callback w; settle IH.
      * rewrite awake_preparation_tasks_end_eq. open_callback w; settle IH.
    + injection Hd as <-. rewrite goodnight_triggered_eq.
      cbn [effects snd]. settle IH.
    + injection Hd as <-.
      destruct (truthy (goodmorning_lights_scene (app_of w))) eqn:E.
      * rewrite (awake_triggered_truthy w E). cbn [effects snd]. settle IH.
      * rewrite (awake_triggered_falsy w E). cbn [effects snd]. settle IH.
Qed.

(** X11: the warm water is never left turned on by a preparation without
    a pending switch-off: at any point of any run, if the last preparation
    that started has not been followed by a [turn_off] call, a prep-end
    timer is armed. *)
Theorem pending_preparation_has_prep_end_timer w tr :
  history w tr ->
  pending tr = true ->
  prep_end_live w.
Proof.
  intros Hh Hp.
  apply prep_end_live_handle.
  - exact (reachable_consistent _ _ _ (history_reachable _ _ Hh)).
  - exact (pending_handle _ _ Hh Hp).
Qed.

Lemma initialize_required_set args tz a es :
  initialize args tz tt = (Ok a, tt, es) -> required_set a.
Proof.
  unfold required_set. init_run.
  init_split args; simpl; try discriminate;
    intros [= <- <-]; cbn; repeat split; assumption.
Qed.

(** X14: in every reachable world the four required entities of the
    application object are set: none of them is [None], so no handler ever
    passes [None] for the warm water or the lights-off scene to the
    host. *)
Theorem required_entities_always_set w :
  reachable w -> required_set (app_of w).
Proof.
  induction 1 as [args tz a es Hinit | w ev x _ IH Hd].
  - exact (initialize_required_set _ _ _ _ Hinit).
  - pose proof (deliver_keeps_config _ _ _ _ _ Hd) as Hc.
    unfold config_of in Hc. injection Hc as H1 H2 H3 H4 _ _ _.
    unfold required_set in *. now rewrite H1, H2, H3, H4.
Qed.

End AlongRuns.

(** ** The further properties at concrete inputs *)

Section MoreWitnesses.

Import Reference Runs MoreRuns.

(** The 07:00 update arriving at 06:00 after start-up. *)
Lemma update_before_prep_arms_one_timer_witness :
  live awake_preparation_tasks_cb (timers scheduled_world)
  = {[0%nat := (awake_preparation_tasks_cb, 1800)]}.
Proof.
  destruct (update_before_prep_arms_one_timer fromisoformat strptime
              (started sample_app) wake_at_7 (at_ 6 0)
              (mkDatetime (at_ 7 0) (Some 0))
              (mkDatetime (at_ 6 30) (Some 0)) reachable_sample)
    as (_ & Hlive & _);
    [reflexivity | reflexivity | reflexivity | reflexivity |].
  exact Hlive.
Defined.

(** 07:00 at offset zero and 08:00 at offset +01:00. *)
Lemma update_depends_on_instant_only_witness :
  final (on_next_awake wake_at_7 (at_ 6 0) (started sample_app))
  = final (on_next_awake wake_at_7_cet (at_ 6 0) (started sample_app)).
Proof.
  destruct (update_depends_on_instant_only fromisoformat strptime
              (started sample_app) wake_at_7 wake_at_7_cet (at_ 6 0)
              (mkDatetime (at_ 7 0) (Some 0))
              (mkDatetime (at_ 8 0) (Some 3600000000))
              (mkDatetime (at_ 6 30) (Some 0))
              (mkDatetime (at_ 7 30) (Some 3600000000)))
    as (Hfinal & _); [reflexivity .. | exact Hfinal].
Defined.

(** A wake time at the very start of year 1, with the offset 30. *)
Lemma only_overflow_escapes_witness :
  raises (outcome (on_next_awake wake_in_year_1 (at_ 6 0) scheduled_world)).
Proof.
  destruct (only_overflow_escapes fromisoformat strptime) as (_ & Hiff).
  apply Hiff. exists (mkDatetime 0 (Some 0)).
  split; vm_compute; reflexivity.
Defined.

(** The lights-off scene given under the legacy key only. *)
Lemma alias_precedence_witness :
  _get_required_arg legacy_args "turn_off_lights_scene"
    ["turn_off_ligts_scene"] tt
  = (Ok (PyStr "scene.legacy"), tt,
     [EffLog WARNING
        (MsgLegacyArg "turn_off_ligts_scene" "turn_off_lights_scene")]).
Proof.
  destruct (alias_precedence legacy_args "turn_off_lights_scene"
              ["turn_off_ligts_scene"] tt) as (_ & Halias & _).
  apply (Halias [] "turn_off_ligts_scene" []).
  - vm_compute. reflexivity.
  - reflexivity.
  - intros b Hb. inversion Hb.
  - vm_compute. eauto.
Defined.

(** The sample configuration starts without an error log. *)
Lemma initialize_registers_listeners_last_witness :
  count is_error_log (effects (initialize sample_args 0 tt)) = 0%nat.
Proof.
  destruct (initialize_registers_listeners_last sample_args 0) as (_ & Hok).
  destruct (Hok sample_app (effects (initialize sample_args 0 tt)))
    as (_ & _ & _ & Hcount & _); [vm_compute; reflexivity | exact Hcount].
Defined.

(** The cycle started by the 07:00 update arriving at 06:00. *)
Lemma preparation_cycle_returns_to_idle_witness :
  exists x2 x3,
    host_deliver (TimerFired 0%nat) scheduled_world = Some x2
    /\ host_deliver (TimerFired 1%nat) (final x2) = Some x3
    /\ timers (final x3) = ∅.
Proof.
  destruct (preparation_cycle_returns_to_idle fromisoformat strptime
              (started sample_app) wake_at_7 (at_ 6 0)
              (mkDatetime (at_ 7 0) (Some 0))
              (mkDatetime (at_ 6 30) (Some 0)) reachable_sample)
    as (x2 & x3 & H2 & H3 & _ & _ & Hempty & _);
    [reflexivity | reflexivity | reflexivity |].
  exists x2, x3. repeat split; assumption.
Defined.

(** The prep timer of [scheduled_world] firing. *)
Lemma configuration_never_changes_witness :
  config_of (app_of (final (awake_preparation_tasks
                              (disarm 0%nat scheduled_world))))
  = config_of (app_of scheduled_world).
Proof.
  apply (configuration_never_changes fromisoformat strptime scheduled_world
           (TimerFired 0%nat)).
  reflexivity.
Defined.

Lemma device_calls_on_configured_entities_witness :
  Forall (on_warm_water (app_of scheduled_world))
    (effects (awake_preparation_tasks (disarm 0%nat scheduled_world))).
Proof.
  destruct (device_calls_on_configured_entities fromisoformat strptime
              scheduled_world (TimerFired 0%nat)
              (awake_preparation_tasks (disarm 0%nat scheduled_world)))
    as [_ Hww]; [reflexivity | exact Hww].
Defined.

(** Blanks before the value, a newline after it. *)
Lemma parse_ignores_surrounding_whitespace_witness :
  parse sample_app ("  " +:+ wake_at_7 +:+ String "010"%char EmptyString)
  = parse sample_app wake_at_7.
Proof.
  apply (parse_ignores_surrounding_whitespace fromisoformat strptime);
    reflexivity.
Defined.

Lemma history_preparing :
  history fromisoformat strptime preparing_world preparing_trace.
Proof.
  eapply (history_deliver _ _ (started sample_app) _
            (NextAwakeChanged wake_at_7 (at_ 6 45)));
    [| reflexivity].
  eapply (history_started _ _ sample_args 0). vm_compute. reflexivity.
Defined.

(** The preparation started by the 07:00 update arriving at 06:45. *)
Lemma pending_preparation_has_prep_end_timer_witness :
  prep_end_live preparing_world.
Proof.
  apply (pending_preparation_has_prep_end_timer fromisoformat strptime
           preparing_world preparing_trace history_preparing).
  vm_compute. reflexivity.
Defined.

(** The offset -30, ten minutes after the wake time. *)
Lemma no_immediate_start_without_positive_offset_witness :
  count is_prep_begin
    (effects (on_next_awake wake_at_7 (at_ 7 10) (started late_app)))
  = 0%nat.
Proof.
  destruct (no_immediate_start_without_positive_offset fromisoformat strptime
              (started late_app) wake_at_7 (at_ 7 10))
    as [Hcount _]; [vm_compute; discriminate | exact Hcount].
Defined.

(** The 08:00 update arriving at 06:10 while a prep timer is armed. *)
Lemma timer_calls_are_sound_witness :
  timer_calls_sound
    (effects (on_next_awake wake_at_8 (at_ 6 10) scheduled_world))
    (timers scheduled_world).
Proof.
  apply (timer_calls_are_sound fromisoformat strptime scheduled_world
           (NextAwakeChanged wake_at_8 (at_ 6 10)) _ reachable_scheduled).
  reflexivity.
Defined.

Lemma required_entities_always_set_witness :
  required_set (app_of scheduled_world).
Proof.
  exact (required_entities_always_set fromisoformat strptime scheduled_world
           reachable_scheduled).
Defined.


(** The awake reaction with a good-morning scene configured, and with the
    scene configured as the empty string. *)
Lemma awake_triggered_spec_witness :
  awake_triggered (started Configured.morning_app)
  = (Ok tt, started Configured.morning_app,
     [EffTurnOn (PyStr "scene.morning"); EffLog INFO MsgAwakeDone])
  /\ awake_triggered (started Configured.empty_scene_app)
     = (Ok tt, started Configured.empty_scene_app,
        [EffLog WARNING MsgNoGoodmorning; EffLog INFO MsgAwakeDone]).
Proof.
  destruct awake_triggered_spec as (_ & _ & _ & _ & _ & _ & _ & Hconf & _).
  split.
  - apply (Hconf sample_args 0 (PyStr "scene.morning")
             Configured.morning_app
             (effects (initialize Configured.morning_args 0 tt))).
    reflexivity.
  - apply (Hconf sample_args 0 (PyStr EmptyString)
             Configured.empty_scene_app
             (effects (initialize Configured.empty_scene_args 0 tt))).
    reflexivity.
Defined.

End MoreWitnesses.
